(** * cert-manager-webhook-ns1: the NS1 DNS01 solver

    A shallow embedding of [pkg/solver/ns1.go] and the properties of
    [Present], [CleanUp], [loadConfig], [setNS1Client] and
    [parseChallenge].

    Go packages are rendered as modules holding their types
    ([v1alpha1.ChallengeRequest], [dns.Record_], ...).  The solver's methods
    have a pointer receiver and talk to three services (the DNS resolver
    behind [util.FindZoneByFqdn], the cluster API, the NS1 REST API); they
    are embedded in a state monad over the solver struct, the state of the
    outside world and the list of service calls made so far. *)

From Stdlib Require Import ZArith Lia Ascii.
From stdpp Require Import base option list gmap strings.

Local Open Scope string_scope.

(** ** Errors

    The solver compares errors with one sentinel only,
    [ns1Rest.ErrRecordExists]; every other error value is carried by its
    message. *)

Inductive error : Type :=
| ErrRecordExists
| errors_New (msg : string).

Definition Error (e : error) : string :=
  match e with
  | ErrRecordExists => "record already exists"
  | errors_New msg => msg
  end.

(** [err == ns1Rest.ErrRecordExists]: identity with the sentinel, not
    equality of messages. *)
Definition is_ErrRecordExists (e : error) : bool :=
  match e with
  | ErrRecordExists => true
  | errors_New _ => false
  end.

Definition fmt_Errorf (formatted : string) : error := errors_New formatted.

(** ** Package [strings] *)

Module Strings.

(** Offset of the first occurrence of [substr] in [s]. *)
Fixpoint find (substr s : string) : option nat :=
  if String.prefix substr s then Some 0%nat
  else match s with
       | EmptyString => None
       | String _ s' => S <$> find substr s'
       end.

(** [strings.Index(s, substr)]: the index of the first instance of
    [substr] in [s], or -1. *)
Definition Index (s substr : string) : Z :=
  match find substr s with
  | Some n => Z.of_nat n
  | None => (-1)%Z
  end.

(** The slice expression [s[:idx]]. *)
Definition slice_to (s : string) (idx : Z) : string :=
  String.substring 0 (Z.to_nat idx) s.

(** [strings.HasSuffix(s, suffix)]. *)
Definition HasSuffix (s suffix : string) : bool :=
  let n := String.length s in
  let m := String.length suffix in
  (m <=? n)%nat && String.eqb (String.substring (n - m) m s) suffix.

(** [s] contains [sub]: some bytes, then [sub], then some bytes. *)
Definition Contains (s sub : string) : Prop :=
  exists pre post, s = pre +:+ sub +:+ post.

End Strings.

(** ** Package [util] of cert-manager *)

Module util.

(** [util.UnFqdn]: [name] without its trailing dot, if it has one. *)
Definition UnFqdn (name : string) : string :=
  let n := String.length name in
  match String.get (n - 1) name with
  | Some c =>
      if negb (n =? 0)%nat && Ascii.eqb c "."%char
      then String.substring 0 (n - 1) name
      else name
  | None => name
  end.

End util.

(** ** The types of the collaborating packages *)

Module cmMetaV1.
(** [SecretKeySelector]: the secret's name (from the inlined
    [LocalObjectReference]) and the key inside it. *)
Record SecretKeySelector : Type := { Name : string; Key : string }.
End cmMetaV1.

Module apiExtensionsV1.
Record JSON : Type := { Raw : string }.
End apiExtensionsV1.

Module v1alpha1.
(** [ChallengeRequest], with the fields the solver reads. *)
Record ChallengeRequest : Type := {
  Key : string;
  ResourceNamespace : string;
  ResolvedFQDN : string;
  ResolvedZone : string;
  Config : option apiExtensionsV1.JSON
}.
End v1alpha1.

Module coreV1.
Record Secret : Type := { Data : gmap string string }.
End coreV1.

Module k8sRest.
Record Config : Type := { Host : string }.
End k8sRest.

Module kubernetes.
Record Clientset : Type := { restConfig : k8sRest.Config }.
End kubernetes.

Module tls.
Record Config : Type := { InsecureSkipVerify : bool }.
End tls.

Module http.
Record Transport : Type := { TLSClientConfig : option tls.Config }.
(** A [Client] whose [Transport] is nil uses [http.DefaultTransport]. *)
Record Client : Type := { Transport_ : option Transport }.

(** Whether requests sent through the client skip the verification of the
    server's certificate chain. *)
Definition skips_verification (c : Client) : bool :=
  match Transport_ c with
  | None => false
  | Some tr =>
      match TLSClientConfig tr with
      | None => false
      | Some cfg => tls.InsecureSkipVerify cfg
      end
  end.
End http.

Module ns1Rest.
(** The client, by what [NewClient] was given: the HTTP client and the
    options [SetAPIKey] and [SetEndpoint]. *)
Record Client : Type := {
  httpClient : http.Client;
  APIKey : string;
  Endpoint : string
}.

Definition NewClient (httpClient : http.Client) (apiKey endpoint : string)
  : Client :=
  {| httpClient := httpClient; APIKey := apiKey; Endpoint := endpoint |}.
End ns1Rest.

Module dns.
Record Answer : Type := { Rdata : list string }.

Record Record_ : Type := {
  Zone : string;
  Domain : string;
  Type_ : string;
  TTL : Z;
  Answers : list Answer
}.

Definition NewTXTAnswer (s : string) : Answer := {| Rdata := [s] |}.

Definition AddAnswer (r : Record_) (a : Answer) : Record_ :=
  {| Zone := Zone r; Domain := Domain r; Type_ := Type_ r; TTL := TTL r;
     Answers := Answers r ++ [a] |}.

Definition set_TTL (r : Record_) (ttl : Z) : Record_ :=
  {| Zone := Zone r; Domain := Domain r; Type_ := Type_ r; TTL := ttl;
     Answers := Answers r |}.
End dns.

(** ** The solver's own types *)

Record ns1DNSProviderConfig : Type := {
  APIKeySecretRef : cmMetaV1.SecretKeySelector;
  Endpoint : string;
  IgnoreSSL : bool
}.

(** [ns1DNSProviderConfig{}] *)
Definition zero_config : ns1DNSProviderConfig :=
  {| APIKeySecretRef := {| cmMetaV1.Name := ""; cmMetaV1.Key := "" |};
     Endpoint := "";
     IgnoreSSL := false |}.

Record Ns1DNSProviderSolver : Type := {
  k8sClient : option kubernetes.Clientset;
  ns1Client : option ns1Rest.Client
}.

(** ** Calls that leave the process *)

Inductive Call : Type :=
| CallFindZoneByFqdn (fqdn : string)
| CallSecretsGet (namespace name : string)
| CallRecordsCreate (cl : ns1Rest.Client) (r : dns.Record_)
| CallRecordsDelete (cl : ns1Rest.Client) (zone domain type : string).

(** The calls to the DNS provider's API. *)
Definition is_provider_call (c : Call) : bool :=
  match c with
  | CallRecordsCreate _ _ | CallRecordsDelete _ _ _ _ => true
  | _ => false
  end.

Definition is_secret_lookup (c : Call) : bool :=
  match c with
  | CallSecretsGet _ _ => true
  | _ => false
  end.

Definition provider_calls (log : list Call) : list Call :=
  List.filter is_provider_call log.

Definition secret_lookups (log : list Call) : list Call :=
  List.filter is_secret_lookup log.

(** ** The collaborators

    Library functions the solver calls and whose code is outside the
    repository.  [GoLib] has the pure ones; [Services W] has the ones that
    reach a service, as transitions of the outside world [W]. *)

Class GoLib : Type := {
  (** [json.Unmarshal(data, &cfg)]: the config after decoding, and the
      error if [data] does not decode. *)
  json_Unmarshal :
    string -> ns1DNSProviderConfig -> ns1DNSProviderConfig * option error;
  (** [strings.ToLower] *)
  strings_ToLower : string -> string
}.

Class Services (W : Type) : Type := {
  (** [util.FindZoneByFqdn(fqdn, util.RecursiveNameservers)] *)
  util_FindZoneByFqdn : string -> W -> (error + string) * W;
  (** [kubernetes.NewForConfig] *)
  kubernetes_NewForConfig : k8sRest.Config -> error + kubernetes.Clientset;
  (** [client.CoreV1().Secrets(namespace).Get(ctx, name, opts)] *)
  secrets_Get :
    kubernetes.Clientset -> string -> string -> W -> (error + coreV1.Secret) * W;
  (** [client.Records.Create(record)] *)
  records_Create : ns1Rest.Client -> dns.Record_ -> W -> option error * W;
  (** [client.Records.Delete(zone, domain, type)] *)
  records_Delete :
    ns1Rest.Client -> string -> string -> string -> W -> option error * W
}.

(** ** The solver monad *)

(** What a method call runs in: the receiver [c], the outside world and the
    log of the calls that left the process, oldest first. *)
Record St (W : Type) : Type := mkSt {
  solver : Ns1DNSProviderSolver;
  world : W;
  trace : list Call
}.
Arguments mkSt {W} _ _ _.
Arguments solver {W} _.
Arguments world {W} _.
Arguments trace {W} _.

(** A Go call returns, or panics (here: only on a nil receiver field). *)
Inductive result (A : Type) : Type :=
| Done (a : A)
| Panic (msg : string).
Arguments Done {A} _.
Arguments Panic {A} _.

Definition M (W A : Type) : Type := St W -> result A * St W.

#[export] Instance M_ret {W} : MRet (M W) := fun A a s => (Done a, s).

#[export] Instance M_bind {W} : MBind (M W) := fun A B k m s =>
  match m s with
  | (Done a, s') => k a s'
  | (Panic msg, s') => (Panic msg, s')
  end.

Definition panic {W A} (msg : string) : M W A := fun s => (Panic msg, s).

(** Reads the receiver. *)
Definition this {W} : M W Ns1DNSProviderSolver := fun s => (Done (solver s), s).

(** [c.ns1Client = cl] *)
Definition store_ns1Client {W} (cl : ns1Rest.Client) : M W unit := fun s =>
  (Done tt,
   mkSt {| k8sClient := k8sClient (solver s); ns1Client := Some cl |}
        (world s) (trace s)).


(** A call to a service: the world answers and moves on, the call is
    logged. *)
Definition call {W A} (ev : Call) (h : W -> A * W) : M W A := fun s =>
  let '(a, w') := h (world s) in
  (Done a, mkSt (solver s) w' (trace s ++ [ev])).

(** ** [pkg/solver/ns1.go] *)

Section Solver.
Context `{Lib : GoLib} {W : Type} `{Srv : Services W}.

(** [dns.NewRecord] of ns1-go: the domain is completed with the zone
    unless it already ends with it, letter case apart. *)
Definition dns_NewRecord (zone domain t : string) : dns.Record_ :=
  let domain :=
    if negb (Strings.HasSuffix (strings_ToLower domain) (strings_ToLower zone))
    then domain +:+ "." +:+ zone
    else domain in
  {| dns.Zone := zone; dns.Domain := domain; dns.Type_ := t;
     dns.TTL := 0; dns.Answers := [] |}.

Definition Name : string := "ns1".

Definition loadConfig (cfgJSON : option apiExtensionsV1.JSON)
  : ns1DNSProviderConfig * option error :=
  let cfg := zero_config in
  match cfgJSON with
  | None => (cfg, None)
  | Some j =>
      match json_Unmarshal (apiExtensionsV1.Raw j) cfg with
      | (cfg, Some err) =>
          (cfg, Some (fmt_Errorf ("error decoding solver config: " +:+ Error err)))
      | (cfg, None) => (cfg, None)
      end
  end.

Definition setNS1Client (ch : v1alpha1.ChallengeRequest)
    (cfg : ns1DNSProviderConfig) : M W (option error) :=
  let ref := APIKeySecretRef cfg in
  if String.eqb (cmMetaV1.Name ref) "" then
    mret (Some (fmt_Errorf ("secret for NS1 apiKey not found in '"
                            +:+ v1alpha1.ResourceNamespace ch +:+ "'")))
  else if String.eqb (cmMetaV1.Key ref) "" then
    mret (Some (fmt_Errorf ("no 'key' set in secret '"
                            +:+ v1alpha1.ResourceNamespace ch +:+ "/"
                            +:+ cmMetaV1.Name ref +:+ "'")))
  else
    c ← this;
    match k8sClient c with
    | None => panic "invalid memory address or nil pointer dereference"
    | Some k8s =>
        got ← call (CallSecretsGet (v1alpha1.ResourceNamespace ch) (cmMetaV1.Name ref))
                   (secrets_Get k8s (v1alpha1.ResourceNamespace ch) (cmMetaV1.Name ref));
        match got with
        | inl err => mret (Some err)
        | inr secret =>
            match coreV1.Data secret !! cmMetaV1.Key ref with
            | None =>
                mret (Some (fmt_Errorf ("no key '" +:+ cmMetaV1.Key ref
                                        +:+ "' in secret '"
                                        +:+ v1alpha1.ResourceNamespace ch +:+ "/"
                                        +:+ cmMetaV1.Name ref +:+ "'")))
            | Some apiKeyBytes =>
                let apiKey := apiKeyBytes in
                let httpClient := {| http.Transport_ := None |} in
                let httpClient :=
                  if IgnoreSSL cfg then
                    let tr := {| http.TLSClientConfig :=
                                   Some {| tls.InsecureSkipVerify := true |} |} in
                    {| http.Transport_ := Some tr |}
                  else httpClient in
                store_ns1Client (ns1Rest.NewClient httpClient apiKey (Endpoint cfg));;
                mret None
            end
        end
    end.

Definition parseChallenge (ch : v1alpha1.ChallengeRequest)
  : M W (string * string * option error) :=
  found ← call (CallFindZoneByFqdn (v1alpha1.ResolvedFQDN ch))
               (util_FindZoneByFqdn (v1alpha1.ResolvedFQDN ch));
  match found with
  | inl err => mret ("", "", Some err)
  | inr zone =>
      let zone := util.UnFqdn zone in
      let idx := Strings.Index (v1alpha1.ResolvedFQDN ch)
                               ("." +:+ v1alpha1.ResolvedZone ch) in
      let domain :=
        if negb (idx =? -1)%Z
        then Strings.slice_to (v1alpha1.ResolvedFQDN ch) idx
        else util.UnFqdn (v1alpha1.ResolvedFQDN ch) in
      mret (zone, domain, None)
  end.

Definition Present (ch : v1alpha1.ChallengeRequest) : M W (option error) :=
  let '(cfg, err) := loadConfig (v1alpha1.Config ch) in
  match err with
  | Some err => mret (Some err)
  | None =>
      '(zone, domain, err) ← parseChallenge ch;
      match err with
      | Some err => mret (Some err)
      | None =>
          c ← this;
          err ← match ns1Client c with
                | None => setNS1Client ch cfg
                | Some _ => mret None
                end;
          match err with
          | Some err => mret (Some err)
          | None =>
              let record := dns_NewRecord zone domain "TXT" in
              let record := dns.set_TTL record 600 in
              let record := dns.AddAnswer record (dns.NewTXTAnswer (v1alpha1.Key ch)) in
              c ← this;
              match ns1Client c with
              | None => panic "invalid memory address or nil pointer dereference"
              | Some cl =>
                  err ← call (CallRecordsCreate cl record) (records_Create cl record);
                  match err with
                  | Some err =>
                      if negb (is_ErrRecordExists err) then mret (Some err)
                      else mret None
                  | None => mret None
                  end
              end
          end
      end
  end.

Definition CleanUp (ch : v1alpha1.ChallengeRequest) : M W (option error) :=
  let '(cfg, err) := loadConfig (v1alpha1.Config ch) in
  match err with
  | Some err => mret (Some err)
  | None =>
      '(zone, domain, err) ← parseChallenge ch;
      match err with
      | Some err => mret (Some err)
      | None =>
          c ← this;
          err ← match ns1Client c with
                | None => setNS1Client ch cfg
                | Some _ => mret None
                end;
          match err with
          | Some err => mret (Some err)
          | None =>
              c ← this;
              match ns1Client c with
              | None => panic "invalid memory address or nil pointer dereference"
              | Some cl =>
                  err ← call (CallRecordsDelete cl zone (domain +:+ "." +:+ zone) "TXT")
                             (records_Delete cl zone (domain +:+ "." +:+ zone) "TXT");
                  match err with
                  | Some err => mret (Some err)
                  | None => mret None
                  end
              end
          end
      end
  end.


End Solver.

(** ** The steps before the provider call

    [Present] (lines 57-71) and [CleanUp] (lines 96-110) open with the same
    statements: decode the config, derive zone and domain, build the
    provider client if the receiver has none.  [prepare] is that opening on
    its own; [Present_prepare] and [CleanUp_prepare] relate it to the two
    methods. *)

Section Prepare.
Context `{Lib : GoLib} {W : Type} `{Srv : Services W}.

Definition prepare (ch : v1alpha1.ChallengeRequest)
  : M W (error + string * string) :=
  let '(cfg, err) := loadConfig (v1alpha1.Config ch) in
  match err with
  | Some err => mret (inl err)
  | None =>
      '(zone, domain, err) ← parseChallenge ch;
      match err with
      | Some err => mret (inl err)
      | None =>
          c ← this;
          err ← match ns1Client c with
                | None => setNS1Client ch cfg
                | Some _ => mret None
                end;
          match err with
          | Some err => mret (inl err)
          | None => mret (inr (zone, domain))
          end
      end
  end.

(** The record [Present] hands to [Records.Create] (lines 75-77). *)
Definition challenge_record (zone domain key : string) : dns.Record_ :=
  dns.AddAnswer (dns.set_TTL (dns_NewRecord zone domain "TXT") 600)
                (dns.NewTXTAnswer key).

(** Lines 73-86 of [Present]. *)
Definition create_step (zone domain key : string) : M W (option error) :=
  c ← this;
  match ns1Client c with
  | None => panic "invalid memory address or nil pointer dereference"
  | Some cl =>
      err ← call (CallRecordsCreate cl (challenge_record zone domain key))
                 (records_Create cl (challenge_record zone domain key));
      match err with
      | Some err =>
          if negb (is_ErrRecordExists err) then mret (Some err) else mret None
      | None => mret None
      end
  end.

(** Lines 112-119 of [CleanUp]. *)
Definition delete_step (zone domain : string) : M W (option error) :=
  c ← this;
  match ns1Client c with
  | None => panic "invalid memory address or nil pointer dereference"
  | Some cl =>
      err ← call (CallRecordsDelete cl zone (domain +:+ "." +:+ zone) "TXT")
                 (records_Delete cl zone (domain +:+ "." +:+ zone) "TXT");
      match err with
      | Some err => mret (Some err)
      | None => mret None
      end
  end.

End Prepare.

(** ** The host's view

    The webhook framework owns one solver and sends it challenges, one
    method call at a time. *)

Definition with_Key (ch : v1alpha1.ChallengeRequest) (key : string)
  : v1alpha1.ChallengeRequest :=
  {| v1alpha1.Key := key;
     v1alpha1.ResourceNamespace := v1alpha1.ResourceNamespace ch;
     v1alpha1.ResolvedFQDN := v1alpha1.ResolvedFQDN ch;
     v1alpha1.ResolvedZone := v1alpha1.ResolvedZone ch;
     v1alpha1.Config := v1alpha1.Config ch |}.

Definition with_Config (ch : v1alpha1.ChallengeRequest)
    (cfgJSON : option apiExtensionsV1.JSON) : v1alpha1.ChallengeRequest :=
  {| v1alpha1.Key := v1alpha1.Key ch;
     v1alpha1.ResourceNamespace := v1alpha1.ResourceNamespace ch;
     v1alpha1.ResolvedFQDN := v1alpha1.ResolvedFQDN ch;
     v1alpha1.ResolvedZone := v1alpha1.ResolvedZone ch;
     v1alpha1.Config := cfgJSON |}.

Inductive Request : Type :=
| ReqPresent (ch : v1alpha1.ChallengeRequest)
| ReqCleanUp (ch : v1alpha1.ChallengeRequest).

(** A call that goes to the provider through [cl], or to the resolver. *)
Definition through (cl : ns1Rest.Client) (c : Call) : Prop :=
  match c with
  | CallFindZoneByFqdn _ => True
  | CallSecretsGet _ _ => False
  | CallRecordsCreate cl' _ | CallRecordsDelete cl' _ _ _ => cl' = cl
  end.

(** A state reached from [s] with the solver unchanged, by calls that went
    through [cl] or to the resolver. *)
Definition kept {W : Type} (cl : ns1Rest.Client) (s s' : St W) : Prop :=
  solver s' = solver s /\
  exists calls, trace s' = (trace s ++ calls)%list /\ Forall (through cl) calls.

Section Host.
Context `{Lib : GoLib} {W : Type} `{Srv : Services W}.

Definition serve (r : Request) : M W (option error) :=
  match r with
  | ReqPresent ch => Present ch
  | ReqCleanUp ch => CleanUp ch
  end.

(** The state after the requests [rs], served in order. *)
Fixpoint serve_all (rs : list Request) (s : St W) : St W :=
  match rs with
  | [] => s
  | r :: rs => serve_all rs (serve r s).2
  end.

End Host.

(** ** A reference world

    The provider as the data model describes it, a store of records keyed by
    (zone, domain, record type); a static table of zones for the resolver;
    the cluster's secrets by (namespace, name). *)

Module Ref.

Record World : Type := {
  zones : gmap string string;
  secrets : gmap (string * string) coreV1.Secret;
  records : gmap (string * string * string) dns.Record_
}.

Definition record_key (r : dns.Record_) : string * string * string :=
  (dns.Zone r, dns.Domain r, dns.Type_ r).

Definition FindZoneByFqdn (fqdn : string) (w : World) : (error + string) * World :=
  match zones w !! fqdn with
  | Some zone => (inr zone, w)
  | None => (inl (errors_New ("could not find the start of authority for " +:+ fqdn)), w)
  end.

Definition Get (_ : kubernetes.Clientset) (namespace name : string) (w : World)
  : (error + coreV1.Secret) * World :=
  match secrets w !! (namespace, name) with
  | Some s => (inr s, w)
  | None => (inl (errors_New ("secrets " +:+ name +:+ " not found")), w)
  end.

Definition Create (_ : ns1Rest.Client) (r : dns.Record_) (w : World)
  : option error * World :=
  match records w !! record_key r with
  | Some _ => (Some ErrRecordExists, w)
  | None =>
      (None, {| zones := zones w; secrets := secrets w;
                records := <[record_key r := r]> (records w) |})
  end.

Definition Delete (_ : ns1Rest.Client) (zone domain t : string) (w : World)
  : option error * World :=
  match records w !! (zone, domain, t) with
  | Some _ =>
      (None, {| zones := zones w; secrets := secrets w;
                records := delete (zone, domain, t) (records w) |})
  | None => (Some (errors_New "record does not exist"), w)
  end.

#[global] Instance services : Services World := {
  util_FindZoneByFqdn := FindZoneByFqdn;
  kubernetes_NewForConfig := fun cfg => inr {| kubernetes.restConfig := cfg |};
  secrets_Get := Get;
  records_Create := Create;
  records_Delete := Delete
}.

(** Lower case of the ASCII letters. *)
Definition lower (c : ascii) : ascii :=
  let n := nat_of_ascii c in
  if (65 <=? n)%nat && (n <=? 90)%nat then ascii_of_nat (n + 32) else c.

Fixpoint ToLower (s : string) : string :=
  match s with
  | EmptyString => EmptyString
  | String c s' => String (lower c) (ToLower s')
  end.

Definition quoted (s : string) : string :=
  String (ascii_of_nat 34) s +:+ String (ascii_of_nat 34) EmptyString.

(** The config of the end-to-end scenario, and its JSON text. *)
Definition scenario_config : ns1DNSProviderConfig :=
  {| APIKeySecretRef := {| cmMetaV1.Name := "ns1-creds"; cmMetaV1.Key := "apiKey" |};
     Endpoint := "https://api.nsone.net/v1/";
     IgnoreSSL := false |}.

Definition scenario_json : string :=
  "{" +:+ quoted "apiKeySecretRef" +:+ ":{"
      +:+ quoted "name" +:+ ":" +:+ quoted "ns1-creds" +:+ ","
      +:+ quoted "key" +:+ ":" +:+ quoted "apiKey" +:+ "},"
      +:+ quoted "endpoint" +:+ ":" +:+ quoted "https://api.nsone.net/v1/" +:+ ","
      +:+ quoted "ignoreSSL" +:+ ":false}".

(** A decoder that knows two documents, the empty object and the
    scenario's, and rejects every other text. *)
Definition Unmarshal (data : string) (cfg : ns1DNSProviderConfig)
  : ns1DNSProviderConfig * option error :=
  if String.eqb data "{}" then (cfg, None)
  else if String.eqb data scenario_json then (scenario_config, None)
  else (cfg, Some (errors_New "invalid character in JSON input")).

#[global] Instance lib : GoLib := {
  json_Unmarshal := Unmarshal;
  strings_ToLower := ToLower
}.

Definition st (c : Ns1DNSProviderSolver) (w : World) : St World := mkSt c w [].

End Ref.

(** ** The end-to-end scenario

    One challenge for [_acme-challenge.example.com.] in zone [example.com],
    the credentials in secret [ns1-creds] of namespace [default], and a
    provider that holds no record yet. *)

Module Scenario.

Definition fqdn : string := "_acme-challenge.example.com.".

Definition challenge : v1alpha1.ChallengeRequest :=
  {| v1alpha1.Key := "LHDhK3oGRvkiefQnx7OOczTY5Tic_xZ6HcMOc_gmtoM";
     v1alpha1.ResourceNamespace := "default";
     v1alpha1.ResolvedFQDN := fqdn;
     v1alpha1.ResolvedZone := "example.com";
     v1alpha1.Config := Some {| apiExtensionsV1.Raw := Ref.scenario_json |} |}.

(** The same challenge with no configuration blob, ... *)
Definition unconfigured : v1alpha1.ChallengeRequest :=
  {| v1alpha1.Key := v1alpha1.Key challenge;
     v1alpha1.ResourceNamespace := "default";
     v1alpha1.ResolvedFQDN := fqdn;
     v1alpha1.ResolvedZone := "example.com";
     v1alpha1.Config := None |}.

(** ... with a blob that is not JSON, ... *)
Definition malformed : v1alpha1.ChallengeRequest :=
  {| v1alpha1.Key := v1alpha1.Key challenge;
     v1alpha1.ResourceNamespace := "default";
     v1alpha1.ResolvedFQDN := fqdn;
     v1alpha1.ResolvedZone := "example.com";
     v1alpha1.Config := Some {| apiExtensionsV1.Raw := "{apiKeySecretRef" |} |}.

(** ... and with another key. *)
Definition rekeyed : v1alpha1.ChallengeRequest :=
  {| v1alpha1.Key := "another-key-authorization-digest";
     v1alpha1.ResourceNamespace := "default";
     v1alpha1.ResolvedFQDN := fqdn;
     v1alpha1.ResolvedZone := "example.com";
     v1alpha1.Config := v1alpha1.Config challenge |}.

Definition world : Ref.World :=
  {| Ref.zones := {[ fqdn := "example.com." ]};
     Ref.secrets :=
       {[ ("default", "ns1-creds") :=
            {| coreV1.Data := {[ "apiKey" := "s3cr3t" ]} |} ]};
     Ref.records := ∅ |}.

(** The solver after [Initialize], before its first challenge. *)
Definition fresh : Ns1DNSProviderSolver :=
  {| k8sClient :=
       Some {| kubernetes.restConfig :=
                 {| k8sRest.Host := "https://kubernetes.default.svc" |} |};
     ns1Client := None |}.

Definition start : St Ref.World := mkSt fresh world [].

Definition client : ns1Rest.Client :=
  ns1Rest.NewClient {| http.Transport_ := None |} "s3cr3t"
                    "https://api.nsone.net/v1/".

(** The solver once it has served a challenge. *)
Definition warm : Ns1DNSProviderSolver :=
  {| k8sClient := k8sClient fresh; ns1Client := Some client |}.

Definition record : dns.Record_ :=
  {| dns.Zone := "example.com";
     dns.Domain := "_acme-challenge.example.com";
     dns.Type_ := "TXT";
     dns.TTL := 600;
     dns.Answers := [ {| dns.Rdata := [v1alpha1.Key challenge] |} ] |}.

(** A record of the same zone for another name under validation. *)
Definition neighbour : dns.Record_ :=
  {| dns.Zone := "example.com";
     dns.Domain := "_acme-challenge.www.example.com";
     dns.Type_ := "TXT";
     dns.TTL := 600;
     dns.Answers := [ {| dns.Rdata := ["key-of-the-www-challenge"] |} ] |}.

(** The record that [rekeyed] publishes: same name, another answer. *)
Definition rekeyed_record : dns.Record_ :=
  {| dns.Zone := "example.com";
     dns.Domain := "_acme-challenge.example.com";
     dns.Type_ := "TXT";
     dns.TTL := 600;
     dns.Answers := [ {| dns.Rdata := [v1alpha1.Key rekeyed] |} ] |}.

Definition world_with (rs : list dns.Record_) : Ref.World :=
  {| Ref.zones := Ref.zones world;
     Ref.secrets := Ref.secrets world;
     Ref.records := list_to_map ((fun r => (Ref.record_key r, r)) <$> rs) |}.

End Scenario.

(** ** The command

    [main.go]: the webhook's name for API registration comes from the
    environment, and the solver is handed to the webhook server as its zero
    value. *)

Module Main.

(** [os.Getenv]: the variable's value, empty when it is not set. *)
Definition os_Getenv (env : gmap string string) (key : string) : string :=
  default "" (env !! key).

(** [var groupName = os.Getenv("GROUP_NAME")] *)
Definition groupName (env : gmap string string) : string :=
  os_Getenv env "GROUP_NAME".

(** The call [cmd.RunWebhookServer(groupName, &solver.Ns1DNSProviderSolver{})]
    that [main] ends with. *)
Inductive Started : Type :=
| RunWebhookServer (groupName : string) (hook : Ns1DNSProviderSolver).

Definition main (env : gmap string string) : result Started :=
  if String.eqb (groupName env) "" then Panic "GROUP_NAME must be specified"
  else Done (RunWebhookServer (groupName env)
                              {| k8sClient := None; ns1Client := None |}).

End Main.

(** ** Reading the steps apart *)

(** Lines 216-220 of [parseChallenge]: the domain, from the two fields of
    the challenge. *)
Definition derived_domain (ch : v1alpha1.ChallengeRequest) : string :=
  let idx := Strings.Index (v1alpha1.ResolvedFQDN ch)
                           ("." +:+ v1alpha1.ResolvedZone ch) in
  if negb (idx =? -1)%Z
  then Strings.slice_to (v1alpha1.ResolvedFQDN ch) idx
  else util.UnFqdn (v1alpha1.ResolvedFQDN ch).

(** Lines 188-194 of [setNS1Client]: the HTTP client for the flag. *)
Definition http_client_for (ignoreSSL : bool) : http.Client :=
  if ignoreSSL then
    {| http.Transport_ :=
         Some {| http.TLSClientConfig :=
                   Some {| tls.InsecureSkipVerify := true |} |} |}
  else {| http.Transport_ := None |}.

(** The state after one more call, answered with the world [w]. *)
Definition after {W : Type} (s : St W) (w : W) (calls : list Call) : St W :=
  mkSt (solver s) w (trace s ++ calls).

(** The solver of [s] with the provider client [cl] stored. *)
Definition with_client {W : Type} (s : St W) (cl : ns1Rest.Client) : St W :=
  mkSt {| k8sClient := k8sClient (solver s); ns1Client := Some cl |}
       (world s) (trace s).

(** ** More inputs *)

Module Edge.

(** A solver on which [Initialize] has not run. *)
Definition blank : Ns1DNSProviderSolver :=
  {| k8sClient := None; ns1Client := None |}.

(** The scenario's challenge with a resolved zone that is not part of its
    FQDN. *)
Definition foreign_zone : v1alpha1.ChallengeRequest :=
  {| v1alpha1.Key := v1alpha1.Key Scenario.challenge;
     v1alpha1.ResourceNamespace := "default";
     v1alpha1.ResolvedFQDN := Scenario.fqdn;
     v1alpha1.ResolvedZone := "example.org";
     v1alpha1.Config := v1alpha1.Config Scenario.challenge |}.

(** The record [Present] creates for [foreign_zone]. *)
Definition foreign_record : dns.Record_ :=
  {| dns.Zone := "example.com";
     dns.Domain := "_acme-challenge.example.com";
     dns.Type_ := "TXT";
     dns.TTL := 600;
     dns.Answers := [ {| dns.Rdata := [v1alpha1.Key Scenario.challenge] |} ] |}.

(** The scenario's challenge with an empty resolved zone. *)
Definition no_zone : v1alpha1.ChallengeRequest :=
  {| v1alpha1.Key := v1alpha1.Key Scenario.challenge;
     v1alpha1.ResourceNamespace := "default";
     v1alpha1.ResolvedFQDN := Scenario.fqdn;
     v1alpha1.ResolvedZone := "";
     v1alpha1.Config := v1alpha1.Config Scenario.challenge |}.

(** The scenario's challenge issued from a namespace without the secret. *)
Definition elsewhere : v1alpha1.ChallengeRequest :=
  {| v1alpha1.Key := v1alpha1.Key Scenario.challenge;
     v1alpha1.ResourceNamespace := "staging";
     v1alpha1.ResolvedFQDN := Scenario.fqdn;
     v1alpha1.ResolvedZone := "example.com";
     v1alpha1.Config := v1alpha1.Config Scenario.challenge |}.

(** A world whose secret lacks the key the config names. *)
Definition keyless_world : Ref.World :=
  {| Ref.zones := Ref.zones Scenario.world;
     Ref.secrets :=
       {[ ("default", "ns1-creds") :=
            {| coreV1.Data := {[ "token" := "s3cr3t" ]} |} ]};
     Ref.records := ∅ |}.

(** A challenge for a name the resolver knows no zone for. *)
Definition unresolvable : v1alpha1.ChallengeRequest :=
  {| v1alpha1.Key := v1alpha1.Key Scenario.challenge;
     v1alpha1.ResourceNamespace := "default";
     v1alpha1.ResolvedFQDN := "_acme-challenge.example.net.";
     v1alpha1.ResolvedZone := "example.net";
     v1alpha1.Config := None |}.

End Edge.

(** * Properties *)

(** ** Strings *)

Section StringFacts.

#[local] Arguments String.append !_ _ / : simpl nomatch.

Lemma prefix_app (sub s : string) :
  String.prefix sub s = true <-> exists post, s = sub +:+ post.
Proof.
  revert s. induction sub as [|a sub IH]; intros s; simpl.
  - split; [intros _; by exists s | by destruct s].
  - destruct s as [|b s]; simpl.
    + split; [done | by intros [post ?]].
    + destruct (Ascii.ascii_dec a b) as [->|Hne].
      * rewrite IH. split; intros [post Hp]; exists post; simpl in *; congruence.
      * split; [done | intros [post Hp]; congruence].
Qed.

Lemma substring_0_app (pre rest : string) :
  String.substring 0 (String.length pre) (pre +:+ rest) = pre.
Proof. induction pre as [|a pre IH]; simpl; [by destruct rest | by rewrite IH]. Qed.

Lemma find_unfold (sub s : string) :
  Strings.find sub s =
  if String.prefix sub s then Some 0%nat
  else match s with
       | EmptyString => None
       | String _ s' => S <$> Strings.find sub s'
       end.
Proof. by destruct s. Qed.

(** [find] returns the offset of an occurrence, ... *)
Lemma find_Some (sub s : string) (n : nat) :
  Strings.find sub s = Some n ->
  exists pre post,
    s = pre +:+ sub +:+ post /\ String.length pre = n /\
    String.substring 0 n s = pre.
Proof.
  revert n. induction s as [|a s IH]; intros n; rewrite find_unfold;
    destruct (String.prefix sub _) eqn:Hp.
  - intros [= <-]. apply prefix_app in Hp as [post Hp].
    by exists "", post.
  - done.
  - intros [= <-]. apply prefix_app in Hp as [post Hp].
    by exists "", post.
  - destruct (Strings.find sub s) as [m|] eqn:Hf; simpl; [|done].
    intros [= <-]. destruct (IH m eq_refl) as (pre & post & Hs & Hl & Hsub).
    exists (String a pre), post. simpl. by rewrite <- Hs, Hl, Hsub.
Qed.

(** ... of the first one, ... *)
Lemma find_first (sub s : string) (n : nat) (pre post : string) :
  Strings.find sub s = Some n -> s = pre +:+ sub +:+ post ->
  (n <= String.length pre)%nat.
Proof.
  revert n pre. induction s as [|a s IH]; intros n pre; rewrite find_unfold;
    destruct (String.prefix sub _) eqn:Hp;
    try (intros [= <-]; lia); try done.
  destruct (Strings.find sub s) as [m|] eqn:Hf; simpl; [|done].
  intros [= <-] Hs. destruct pre as [|b pre]; simpl in Hs.
  - assert (String.prefix sub (String a s) = true) as Hp'
      by (apply prefix_app; by exists post).
    congruence.
  - injection Hs as -> ->. specialize (IH m pre eq_refl eq_refl). simpl. lia.
Qed.

(** ... and finds one whenever there is one. *)
Lemma find_None (sub s : string) :
  Strings.find sub s = None <-> ~ Strings.Contains s sub.
Proof.
  split.
  - induction s as [|a s IH]; rewrite find_unfold;
      destruct (String.prefix sub _) eqn:Hp; try done.
    + intros _ (pre & post & Hs). destruct pre; [|done].
      assert (String.prefix sub "" = true) as Hp'
        by (apply prefix_app; by exists post).
      congruence.
    + destruct (Strings.find sub s) eqn:Hf; [done|].
      intros _ (pre & post & Hs). destruct pre as [|b pre]; simpl in Hs.
      * assert (String.prefix sub (String a s) = true) as Hp'
          by (apply prefix_app; by exists post).
        congruence.
      * injection Hs as -> ->. apply IH; [done|]. by exists pre, post.
  - intros Hno. destruct (Strings.find sub s) as [n|] eqn:Hf; [|done].
    destruct (find_Some _ _ _ Hf) as (pre & post & Hs & _).
    exfalso. apply Hno. by exists pre, post.
Qed.

Lemma Index_found (s sub : string) :
  Strings.Contains s sub ->
  (0 <= Strings.Index s sub)%Z /\
  exists post,
    s = Strings.slice_to s (Strings.Index s sub) +:+ sub +:+ post /\
    forall pre' post', s = pre' +:+ sub +:+ post' ->
      (String.length (Strings.slice_to s (Strings.Index s sub))
       <= String.length pre')%nat.
Proof.
  intros Hc. unfold Strings.Index, Strings.slice_to.
  destruct (Strings.find sub s) as [n|] eqn:Hf.
  - split; [lia|]. rewrite Nat2Z.id.
    destruct (find_Some _ _ _ Hf) as (pre & post & Hs & Hl & Hsub).
    exists post. rewrite Hsub. split; [done|].
    intros pre' post' Hs'. rewrite Hl. by eapply find_first.
  - by apply find_None in Hf.
Qed.

Lemma Index_not_found (s sub : string) :
  ~ Strings.Contains s sub -> Strings.Index s sub = (-1)%Z.
Proof. intros Hc. apply find_None in Hc. unfold Strings.Index. by rewrite Hc. Qed.

Lemma get_app_last (n : string) (c : ascii) :
  String.get (String.length n) (n +:+ String c "") = Some c.
Proof. induction n as [|a n IH]; simpl; [done | exact IH]. Qed.

Lemma length_app_1 (n : string) (c : ascii) :
  String.length (n +:+ String c "") = S (String.length n).
Proof. induction n as [|a n IH]; simpl; [done | by rewrite IH]. Qed.

(** A name that ends with a dot loses it. *)
Lemma UnFqdn_dot (n : string) : util.UnFqdn (n +:+ ".") = n.
Proof.
  unfold util.UnFqdn. rewrite length_app_1. simpl.
  rewrite Nat.sub_0_r, get_app_last. simpl. apply substring_0_app.
Qed.

(** Any other name is unchanged. *)
Lemma UnFqdn_no_dot (name : string) :
  (forall n, name <> n +:+ ".") -> util.UnFqdn name = name.
Proof.
  intros Hno. unfold util.UnFqdn.
  destruct (String.get (String.length name - 1) name) as [c|] eqn:Hg; [|done].
  destruct (String.length name =? 0)%nat eqn:Hz; simpl; [done|].
  destruct (Ascii.eqb_spec c ".") as [->|]; [|done].
  exfalso. apply Nat.eqb_neq in Hz.
  assert (forall s, String.length s <> 0%nat ->
            String.get (String.length s - 1) s = Some "."%char ->
            exists n, s = n +:+ ".") as Hlast.
  { clear. induction s as [|a s IH]; simpl; [done|]. intros _.
    rewrite Nat.sub_0_r. destruct s as [|b s].
    - simpl. intros [= ->]. by exists "".
    - simpl String.length. simpl String.get. intros Hg.
      destruct IH as [n Hn]; [done | by simpl; rewrite Nat.sub_0_r |].
      exists (String a n). simpl. by rewrite <- Hn. }
  destruct (Hlast name Hz Hg) as [n Hn]. by apply (Hno n).
Qed.

Lemma ends_with_dot_dec (name : string) :
  (exists n, name = n +:+ ".") \/ (forall n, name <> n +:+ ".").
Proof.
  induction name as [|a s IH].
  - right. by intros [|b n].
  - destruct IH as [[n ->]|Hno]; [left; by exists (String a n)|].
    destruct s as [|b s].
    + destruct (Ascii.eqb_spec a ".") as [->|Hne]; [left; by exists ""|].
      right. intros [|c [|d n]]; simpl; congruence.
    + right. intros [|c n]; simpl; [done|].
      intros [= -> Hs]. by apply (Hno n).
Qed.

End StringFacts.

(** ** The monad's steps *)

Ltac unfold_M :=
  unfold mbind, M_bind, mret, M_ret, this, call, panic, store_ns1Client in *.

Section Steps.
Context `{Lib : GoLib} {W : Type} `{Srv : Services W}.
Implicit Types (ch : v1alpha1.ChallengeRequest) (s : St W).

Lemma provider_calls_app (l1 l2 : list Call) :
  provider_calls (l1 ++ l2) = (provider_calls l1 ++ provider_calls l2)%list.
Proof. apply List.filter_app. Qed.

Lemma secret_lookups_app (l1 l2 : list Call) :
  secret_lookups (l1 ++ l2) = (secret_lookups l1 ++ secret_lookups l2)%list.
Proof. apply List.filter_app. Qed.

(** [parseChallenge] makes one call, to the resolver, never panics and
    leaves the receiver alone. *)
Lemma parseChallenge_inv ch s r s' :
  parseChallenge ch s = (r, s') ->
  solver s' = solver s /\
  trace s' = (trace s ++ [CallFindZoneByFqdn (v1alpha1.ResolvedFQDN ch)])%list /\
  world s' = (util_FindZoneByFqdn (v1alpha1.ResolvedFQDN ch) (world s)).2 /\
  exists x, r = Done x.
Proof.
  unfold parseChallenge. unfold_M.
  destruct (util_FindZoneByFqdn _ (world s)) as [[e|z] w'];
    intros [= <- <-]; simpl; eauto.
Qed.

(** [setNS1Client] calls no provider; when it returns nil the receiver
    holds a client, and otherwise the receiver is as before. *)
Lemma setNS1Client_inv ch cfg s r s' :
  setNS1Client ch cfg s = (r, s') ->
  provider_calls (trace s') = provider_calls (trace s) /\
  k8sClient (solver s') = k8sClient (solver s) /\
  (r = Done None -> is_Some (ns1Client (solver s'))) /\
  (r <> Done None -> s' = s \/ exists w' ev, s' = mkSt (solver s) w' (trace s ++ [ev])).
Proof.
  unfold setNS1Client.
  destruct (String.eqb _ "") eqn:Hn; [intros [= <- <-]; naive_solver|].
  destruct (String.eqb (cmMetaV1.Key _) "") eqn:Hk; [intros [= <- <-]; naive_solver|].
  unfold_M. destruct (k8sClient (solver s)) as [k|] eqn:Hk8s; [|intros [= <- <-]; naive_solver].
  destruct (secrets_Get _ _ _ (world s)) as [[e|sec] w'].
  - intros [= <- <-]. simpl. rewrite provider_calls_app, app_nil_r. naive_solver.
  - destruct (coreV1.Data sec !! _) as [key|].
    + intros [= <- <-]. simpl. rewrite provider_calls_app, app_nil_r. naive_solver.
    + intros [= <- <-]. simpl. rewrite provider_calls_app, app_nil_r. naive_solver.
Qed.

(** [Present] is [prepare], then the create step. *)
Lemma Present_prepare ch s :
  Present ch s =
  match prepare ch s with
  | (Done (inl err), s1) => (Done (Some err), s1)
  | (Done (inr (zone, domain)), s1) => create_step zone domain (v1alpha1.Key ch) s1
  | (Panic msg, s1) => (Panic msg, s1)
  end.
Proof.
  unfold Present, prepare, create_step, challenge_record.
  destruct (loadConfig _) as [cfg [e|]]; [done|]. unfold_M.
  destruct (parseChallenge ch s) as [[[[z d] [e|]]|msg] s1]; try done.
  destruct (ns1Client (solver s1)) as [cl|] eqn:Hcl.
  - by rewrite Hcl.
  - destruct (setNS1Client ch cfg s1) as [[[e|]|msg] s2]; done.
Qed.

(** [CleanUp] is [prepare], then the delete step. *)
Lemma CleanUp_prepare ch s :
  CleanUp ch s =
  match prepare ch s with
  | (Done (inl err), s1) => (Done (Some err), s1)
  | (Done (inr (zone, domain)), s1) => delete_step zone domain s1
  | (Panic msg, s1) => (Panic msg, s1)
  end.
Proof.
  unfold CleanUp, prepare, delete_step.
  destruct (loadConfig _) as [cfg [e|]]; [done|]. unfold_M.
  destruct (parseChallenge ch s) as [[[[z d] [e|]]|msg] s1]; try done.
  destruct (ns1Client (solver s1)) as [cl|] eqn:Hcl.
  - by rewrite Hcl.
  - destruct (setNS1Client ch cfg s1) as [[[e|]|msg] s2]; done.
Qed.

(** [prepare] calls no provider, and when it succeeds the receiver holds a
    client. *)
Lemma prepare_inv ch s r s1 :
  prepare ch s = (r, s1) ->
  provider_calls (trace s1) = provider_calls (trace s) /\
  (forall zone domain, r = Done (inr (zone, domain)) ->
     is_Some (ns1Client (solver s1))).
Proof.
  unfold prepare.
  destruct (loadConfig _) as [cfg [e|]]; [intros [= <- <-]; naive_solver|].
  unfold_M.
  destruct (parseChallenge ch s) as [[[[z d] [e|]]|msg] s0] eqn:Hp;
    apply parseChallenge_inv in Hp as (Hsol & Htr & _ & _);
    try (intros [= <- <-]; rewrite Htr, provider_calls_app, app_nil_r; naive_solver).
  destruct (ns1Client (solver s0)) as [cl|] eqn:Hcl.
  - intros [= <- <-]. rewrite Htr, provider_calls_app, app_nil_r. naive_solver.
  - destruct (setNS1Client ch cfg s0) as [[[e|]|msg] s2] eqn:Hset;
      apply setNS1Client_inv in Hset as (Hpc & _ & Hsome & _);
      intros [= <- <-]; rewrite Hpc, Htr, provider_calls_app, app_nil_r;
      naive_solver.
Qed.

(** With a client in the receiver, [prepare] is the decoding of the config
    and [parseChallenge]. *)
Lemma prepare_cached ch s cl :
  ns1Client (solver s) = Some cl ->
  prepare ch s =
  match loadConfig (v1alpha1.Config ch) with
  | (_, Some err) => (Done (inl err), s)
  | (_, None) =>
      match parseChallenge ch s with
      | (Done (_, _, Some err), s1) => (Done (inl err), s1)
      | (Done (zone, domain, None), s1) => (Done (inr (zone, domain)), s1)
      | (Panic msg, s1) => (Panic msg, s1)
      end
  end.
Proof.
  intros Hcl. unfold prepare.
  destruct (loadConfig _) as [cfg [e|]]; [done|]. unfold_M.
  destruct (parseChallenge ch s) as [[[[z d] [e|]]|msg] s1] eqn:Hp; try done.
  apply parseChallenge_inv in Hp as (Hsol & _). by rewrite Hsol, Hcl.
Qed.

End Steps.

(** ** Decoding the configuration *)

(** C10. [loadConfig] of an absent (nil) blob returns the zero-value config
    and no error.  When [json.Unmarshal] rejects the blob's bytes with an
    error [e], [loadConfig] returns the error "error decoding solver
    config: e", and [Present] and [CleanUp] return that error at once: no
    call leaves the process and the solver is as before. *)
Theorem loadConfig_nil_and_malformed `{Lib : GoLib} :
  loadConfig None = (zero_config, None) /\
  forall (W : Type) (Srv : Services W) (ch : v1alpha1.ChallengeRequest)
         (j : apiExtensionsV1.JSON) (cfg' : ns1DNSProviderConfig) (e : error)
         (s : St W),
    v1alpha1.Config ch = Some j ->
    json_Unmarshal (apiExtensionsV1.Raw j) zero_config = (cfg', Some e) ->
    let err := errors_New ("error decoding solver config: " +:+ Error e) in
    (loadConfig (Some j)).2 = Some err /\
    Present ch s = (Done (Some err), s) /\
    CleanUp ch s = (Done (Some err), s).
Proof.
  split; [reflexivity|].
  intros W Srv ch j cfg' e s Hcfg Hdec. simpl.
  unfold Present, CleanUp. rewrite Hcfg. unfold loadConfig. rewrite Hdec.
  by repeat split.
Qed.

Lemma loadConfig_nil_and_malformed_witness :
  json_Unmarshal "{apiKeySecretRef" zero_config
    = (zero_config, Some (errors_New "invalid character in JSON input")) /\
  Present Scenario.malformed Scenario.start
    = (Done (Some (errors_New
         "error decoding solver config: invalid character in JSON input")),
       Scenario.start) /\
  CleanUp Scenario.malformed Scenario.start
    = (Done (Some (errors_New
         "error decoding solver config: invalid character in JSON input")),
       Scenario.start).
Proof.
  split; [reflexivity|].
  pose proof (proj2 (@loadConfig_nil_and_malformed Ref.lib) Ref.World Ref.services
                Scenario.malformed {| apiExtensionsV1.Raw := "{apiKeySecretRef" |}
                zero_config (errors_New "invalid character in JSON input")
                Scenario.start eq_refl eq_refl) as (_ & HP & HC).
  split; [exact HP | exact HC].
Defined.

(** ** Building the provider client *)

Section Client.
Context {W : Type} `{Srv : Services W}.

(** [setNS1Client] returns nil only after storing a client built from the
    secret's value, the endpoint and the flag of the config. *)
Lemma setNS1Client_built (ch : v1alpha1.ChallengeRequest)
    (cfg : ns1DNSProviderConfig) (s s' : St W) :
  setNS1Client ch cfg s = (Done None, s') ->
  exists apiKey,
    ns1Client (solver s') =
    Some (ns1Rest.NewClient
            (if IgnoreSSL cfg
             then {| http.Transport_ :=
                       Some {| http.TLSClientConfig :=
                                 Some {| tls.InsecureSkipVerify := true |} |} |}
             else {| http.Transport_ := None |})
            apiKey (Endpoint cfg)).
Proof.
  unfold setNS1Client.
  destruct (String.eqb _ "") eqn:Hn; [done|].
  destruct (String.eqb (cmMetaV1.Key _) "") eqn:Hk; [done|].
  unfold_M. destruct (k8sClient (solver s)) as [k|]; [|done].
  destruct (secrets_Get _ _ _ (world s)) as [[e|sec] w']; [done|].
  destruct (coreV1.Data sec !! _) as [key|]; [|done].
  intros [= <-]. by exists key.
Qed.

End Client.

(** C9. When [setNS1Client] constructs the provider client (it returns nil),
    [ignoreSSL: true] gives the client an HTTP transport whose TLS config has
    [InsecureSkipVerify] set, so certificate verification is skipped;
    [ignoreSSL: false], which is also what an absent field decodes to, leaves
    the client [&http.Client{}], whose nil transport is the default one and
    verifies certificates. *)
Theorem setNS1Client_transport {W : Type} `{Srv : Services W}
    (ch : v1alpha1.ChallengeRequest) (cfg : ns1DNSProviderConfig) (s s' : St W) :
  setNS1Client ch cfg s = (Done None, s') ->
  exists cl,
    ns1Client (solver s') = Some cl /\
    (IgnoreSSL cfg = true ->
       ns1Rest.httpClient cl =
         {| http.Transport_ :=
              Some {| http.TLSClientConfig :=
                        Some {| tls.InsecureSkipVerify := true |} |} |} /\
       http.skips_verification (ns1Rest.httpClient cl) = true) /\
    (IgnoreSSL cfg = false ->
       ns1Rest.httpClient cl = {| http.Transport_ := None |} /\
       http.skips_verification (ns1Rest.httpClient cl) = false) /\
    IgnoreSSL zero_config = false.
Proof.
  intros Hset. apply setNS1Client_built in Hset as [apiKey Hcl].
  eexists. split; [exact Hcl|]. simpl.
  split; [intros ->; by split | split; [intros ->; by split | done]].
Qed.

Lemma setNS1Client_transport_witness :
  setNS1Client Scenario.challenge Ref.scenario_config Scenario.start
    = (Done None,
       mkSt Scenario.warm Scenario.world [CallSecretsGet "default" "ns1-creds"]) /\
  exists cl,
    Some Scenario.client = Some cl /\
    http.skips_verification (ns1Rest.httpClient cl) = false.
Proof.
  assert (setNS1Client Scenario.challenge Ref.scenario_config Scenario.start
          = (Done None,
             mkSt Scenario.warm Scenario.world
                  [CallSecretsGet "default" "ns1-creds"])) as Hrun
    by (vm_compute; reflexivity).
  split; [exact Hrun|].
  destruct (setNS1Client_transport _ _ _ _ Hrun) as (cl & Hcl & _ & Hoff & _).
  exists cl. split; [exact Hcl | exact (proj2 (Hoff eq_refl))].
Defined.

(** ** Deriving zone and domain *)

(** C3. When [parseChallenge] returns without error: if the resolved FQDN
    contains "." followed by the resolved zone, the domain is the part of the
    FQDN before the first such occurrence (so the FQDN is the domain, the
    dot, the zone and a rest, and no occurrence starts earlier); if it does
    not, the domain is [util.UnFqdn] of the FQDN, which is the FQDN without
    its trailing dot when it ends with one and the FQDN itself otherwise. *)
Theorem parseChallenge_domain {W : Type} `{Srv : Services W}
    (ch : v1alpha1.ChallengeRequest) (s s' : St W) (zone domain : string) :
  parseChallenge ch s = (Done (zone, domain, None), s') ->
  let fqdn := v1alpha1.ResolvedFQDN ch in
  let suffix := "." +:+ v1alpha1.ResolvedZone ch in
  (Strings.Contains fqdn suffix ->
     (exists rest, fqdn = domain +:+ suffix +:+ rest) /\
     (forall pre rest, fqdn = pre +:+ suffix +:+ rest ->
        (String.length domain <= String.length pre)%nat)) /\
  (~ Strings.Contains fqdn suffix ->
     domain = util.UnFqdn fqdn /\
     (fqdn = domain +:+ "." \/
      domain = fqdn /\ forall n, fqdn <> n +:+ ".")).
Proof.
  unfold parseChallenge. unfold_M.
  destruct (util_FindZoneByFqdn _ (world s)) as [[e|z] w']; [done|].
  intros [= _ <- _]. simpl. split.
  - intros Hc. destruct (Index_found _ _ Hc) as (Hge & rest & Hs & Hfirst).
    destruct (Z.eqb_spec (Strings.Index (v1alpha1.ResolvedFQDN ch)
                            ("." +:+ v1alpha1.ResolvedZone ch)) (-1)) as [Heq|_];
      [lia|]. simpl. split; [by exists rest | exact Hfirst].
  - intros Hc. rewrite (Index_not_found _ _ Hc). simpl. split; [done|].
    destruct (ends_with_dot_dec (v1alpha1.ResolvedFQDN ch)) as [[n Hn]|Hno].
    + left. rewrite Hn at 1. by rewrite Hn, UnFqdn_dot.
    + right. split; [by apply UnFqdn_no_dot | done].
Qed.

Lemma parseChallenge_domain_witness :
  parseChallenge Scenario.challenge Scenario.start
    = (Done ("example.com", "_acme-challenge", None),
       mkSt Scenario.fresh Scenario.world
            [CallFindZoneByFqdn "_acme-challenge.example.com."]) /\
  exists rest,
    "_acme-challenge.example.com." = "_acme-challenge" +:+ ".example.com" +:+ rest.
Proof.
  split; [reflexivity|].
  refine (proj1 (proj1 (parseChallenge_domain Scenario.challenge Scenario.start
                   _ "example.com" "_acme-challenge" eq_refl) _)).
  by exists "_acme-challenge", ".".
Defined.

(** ** The provider step *)

Section ProviderStep.
Context `{Lib : GoLib} {W : Type} `{Srv : Services W}.
Implicit Types (ch : v1alpha1.ChallengeRequest) (s : St W).

Lemma create_step_run (zone domain key : string) s (cl : ns1Rest.Client) :
  ns1Client (solver s) = Some cl ->
  create_step zone domain key s =
  let r := challenge_record zone domain key in
  (Done (match (records_Create cl r (world s)).1 with
         | Some err => if is_ErrRecordExists err then None else Some err
         | None => None
         end),
   mkSt (solver s) (records_Create cl r (world s)).2
        (trace s ++ [CallRecordsCreate cl r])).
Proof.
  intros Hcl. unfold create_step. unfold_M. rewrite Hcl. simpl.
  destruct (records_Create _ _ _) as [[e|] w']; [by destruct e | done].
Qed.

Lemma delete_step_run (zone domain : string) s (cl : ns1Rest.Client) :
  ns1Client (solver s) = Some cl ->
  delete_step zone domain s =
  (Done (records_Delete cl zone (domain +:+ "." +:+ zone) "TXT" (world s)).1,
   mkSt (solver s)
        (records_Delete cl zone (domain +:+ "." +:+ zone) "TXT" (world s)).2
        (trace s ++ [CallRecordsDelete cl zone (domain +:+ "." +:+ zone) "TXT"])).
Proof.
  intros Hcl. unfold delete_step. unfold_M. rewrite Hcl.
  by destruct (records_Delete _ _ _ _ _) as [[e|] w'].
Qed.

(** The record of a challenge, field by field. *)
Lemma challenge_record_fields (zone domain key : string) :
  let r := challenge_record zone domain key in
  dns.Zone r = zone /\
  dns.Domain r = dns.Domain (dns_NewRecord zone domain "TXT") /\
  dns.Type_ r = "TXT" /\
  dns.TTL r = 600%Z /\
  dns.Answers r = [ {| dns.Rdata := [key] |} ].
Proof. by repeat split. Qed.

End ProviderStep.

(** ** The reference world *)

Section RefWorld.
Context `{Lib : GoLib}.
Implicit Types (ch : v1alpha1.ChallengeRequest) (s : St Ref.World).

Lemma Ref_setNS1Client_world ch cfg s r s' :
  setNS1Client ch cfg s = (r, s') -> world s' = world s.
Proof.
  unfold setNS1Client.
  destruct (String.eqb _ ""); [by intros [= <- <-]|].
  destruct (String.eqb (cmMetaV1.Key _) ""); [by intros [= <- <-]|].
  unfold_M. destruct (k8sClient (solver s)); [|by intros [= <- <-]].
  simpl. unfold Ref.Get. destruct (Ref.secrets _ !! _) as [sec|];
    [|by intros [= <- <-]].
  by destruct (coreV1.Data sec !! _); intros [= <- <-].
Qed.

(** Neither the resolver nor the cluster changes the reference world. *)
Lemma Ref_prepare_world ch s r s1 :
  prepare ch s = (r, s1) -> world s1 = world s.
Proof.
  unfold prepare.
  destruct (loadConfig _) as [cfg [e|]]; [by intros [= <- <-]|]. unfold_M.
  destruct (parseChallenge ch s) as [x s0] eqn:Hp.
  assert (world s0 = world s) as Hw0.
  { apply parseChallenge_inv in Hp as (_ & _ & -> & _). simpl.
    unfold Ref.FindZoneByFqdn. by destruct (Ref.zones _ !! _). }
  destruct x as [[[z d] [e|]]|msg]; try (by intros [= <- <-]).
  destruct (ns1Client (solver s0)); [by intros [= <- <-]|].
  destruct (setNS1Client ch cfg s0) as [[[e|]|msg] s2] eqn:Hs;
    apply Ref_setNS1Client_world in Hs; intros [= <- <-]; congruence.
Qed.

(** In the reference world the outcome of [prepare] depends on the
    solver and the world, not on the log. *)
Lemma Ref_prepare_again ch s s1 zone domain (s2 : St Ref.World) :
  prepare ch s = (Done (inr (zone, domain)), s1) ->
  solver s2 = solver s1 -> Ref.zones (world s2) = Ref.zones (world s) ->
  exists s3, prepare ch s2 = (Done (inr (zone, domain)), s3) /\
             solver s3 = solver s2 /\ world s3 = world s2.
Proof.
  intros Hprep Hsol Hz.
  destruct (prepare_inv _ _ _ _ Hprep) as (_ & Hsome).
  destruct (Hsome _ _ eq_refl) as [cl Hcl].
  rewrite (prepare_cached ch s2 cl) by congruence.
  revert Hprep. unfold prepare.
  destruct (loadConfig _) as [cfg [e|]]; [done|].
  unfold parseChallenge. unfold_M. simpl. unfold Ref.FindZoneByFqdn.
  rewrite Hz. destruct (Ref.zones (world s) !! _) as [z|]; [|done].
  simpl. destruct (ns1Client (solver s)).
  - intros [= <- <- _]. eauto.
  - destruct (setNS1Client _ _ _) as [[[e|]|msg] s'] eqn:Hs; try done.
    intros [= <- <- _]. eauto.
Qed.

End RefWorld.

(** ** Present *)

(** C1. Once [Present] reaches its create call: if the provider answers with
    the "record already exists" error, [Present] returns nil; if it answers
    with any other error, [Present] returns that error.  Against a provider
    that keeps the records it is given, a [Present] that succeeded succeeds
    again when it is invoked with the same challenge. *)
Theorem Present_tolerates_existing_record :
  (forall (Lib : GoLib) (W : Type) (Srv : Services W)
          (ch : v1alpha1.ChallengeRequest) (s s1 : St W) (zone domain : string)
          (cl : ns1Rest.Client) (e : error) (w' : W),
     prepare ch s = (Done (inr (zone, domain)), s1) ->
     ns1Client (solver s1) = Some cl ->
     records_Create cl (challenge_record zone domain (v1alpha1.Key ch)) (world s1)
       = (Some e, w') ->
     (e = ErrRecordExists -> (Present ch s).1 = Done None) /\
     (e <> ErrRecordExists -> (Present ch s).1 = Done (Some e))) /\
  (forall (Lib : GoLib) (ch : v1alpha1.ChallengeRequest) (s s1 : St Ref.World),
     Present ch s = (Done None, s1) ->
     exists s2, Present ch s1 = (Done None, s2)).
Proof.
  split.
  - intros Lib W Srv ch s s1 zone domain cl e w' Hprep Hcl Hcreate.
    rewrite Present_prepare, Hprep, (create_step_run _ _ _ _ cl Hcl). simpl.
    rewrite Hcreate. simpl. split; [by intros -> | by destruct e].
  - intros Lib ch s s1. rewrite Present_prepare.
    destruct (prepare ch s) as [[[e|[zone domain]]|msg] s0] eqn:Hprep; try done.
    destruct (prepare_inv _ _ _ _ Hprep) as (_ & Hsome).
    destruct (Hsome _ _ eq_refl) as [cl Hcl].
    pose proof (Ref_prepare_world _ _ _ _ Hprep) as Hw0.
    rewrite (create_step_run _ _ _ _ cl Hcl). simpl. unfold Ref.Create.
    set (r := challenge_record zone domain (v1alpha1.Key ch)).
    intros Hrun.
    assert (solver s1 = solver s0 /\ Ref.zones (world s1) = Ref.zones (world s) /\
            is_Some (Ref.records (world s1) !! Ref.record_key r))
      as (Hsol & Hz & Hrec).
    { destruct (Ref.records (world s0) !! Ref.record_key r) eqn:Hlook;
        simpl in Hrun; injection Hrun as <-; simpl; rewrite <- Hw0.
      - by rewrite Hlook.
      - by rewrite lookup_insert_eq. }
    destruct (Ref_prepare_again ch s s0 zone domain s1 Hprep Hsol Hz)
      as (s3 & Hprep' & Hsol' & Hw').
    rewrite Present_prepare, Hprep'.
    rewrite (create_step_run _ _ _ _ cl) by congruence. simpl.
    unfold Ref.Create. fold r. rewrite Hw'. destruct Hrec as [r' ->]. eauto.
Qed.

Lemma Present_tolerates_existing_record_witness :
  (Present Scenario.challenge
     (mkSt Scenario.fresh
           {| Ref.zones := Ref.zones Scenario.world;
              Ref.secrets := Ref.secrets Scenario.world;
              Ref.records := {[ Ref.record_key Scenario.record := Scenario.record ]} |}
           [])).1 = Done None /\
  exists s2, Present Scenario.challenge (Present Scenario.challenge Scenario.start).2
             = (Done None, s2).
Proof.
  split.
  - refine (proj1 (proj1 Present_tolerates_existing_record Ref.lib Ref.World
                     Ref.services Scenario.challenge _ _
                     "example.com" "_acme-challenge" Scenario.client
                     ErrRecordExists _ _ _ _) eq_refl);
      vm_compute; reflexivity.
  - apply (proj2 Present_tolerates_existing_record Ref.lib Scenario.challenge
             Scenario.start).
    vm_compute; reflexivity.
Defined.

(** C8. Once [Present] reaches its provider step it makes exactly one
    provider call, the creation of the record [dns.NewRecord(zone, domain,
    "TXT")] with TTL 600 and the single answer made of the challenge's key;
    when that call succeeds [Present] returns nil.  Against a provider that
    keeps the records it is given and holds none under that record's key,
    the call succeeds and the store afterwards is the store before plus that
    one record. *)
Theorem Present_creates_TXT_record :
  (forall (Lib : GoLib) (W : Type) (Srv : Services W)
          (ch : v1alpha1.ChallengeRequest) (s s1 : St W) (zone domain : string),
     prepare ch s = (Done (inr (zone, domain)), s1) ->
     exists cl r,
       ns1Client (solver s1) = Some cl /\
       r = challenge_record zone domain (v1alpha1.Key ch) /\
       dns.Zone r = zone /\
       dns.Domain r = dns.Domain (dns_NewRecord zone domain "TXT") /\
       dns.Type_ r = "TXT" /\
       dns.TTL r = 600%Z /\
       dns.Answers r = [ {| dns.Rdata := [v1alpha1.Key ch] |} ] /\
       provider_calls (trace (Present ch s).2)
         = (provider_calls (trace s) ++ [CallRecordsCreate cl r])%list /\
       world (Present ch s).2 = (records_Create cl r (world s1)).2 /\
       ((records_Create cl r (world s1)).1 = None ->
        (Present ch s).1 = Done None)) /\
  (forall (Lib : GoLib) (ch : v1alpha1.ChallengeRequest) (s s1 : St Ref.World)
          (zone domain : string),
     prepare ch s = (Done (inr (zone, domain)), s1) ->
     let r := challenge_record zone domain (v1alpha1.Key ch) in
     Ref.records (world s) !! Ref.record_key r = None ->
     (Present ch s).1 = Done None /\
     Ref.records (world (Present ch s).2)
       = <[Ref.record_key r := r]> (Ref.records (world s))).
Proof.
  split.
  - intros Lib W Srv ch s s1 zone domain Hprep.
    destruct (prepare_inv _ _ _ _ Hprep) as (Hpc & Hsome).
    destruct (Hsome _ _ eq_refl) as [cl Hcl].
    exists cl, (challenge_record zone domain (v1alpha1.Key ch)).
    rewrite Present_prepare, Hprep, (create_step_run _ _ _ _ cl Hcl). simpl.
    rewrite provider_calls_app, Hpc. repeat split; try done.
    by intros ->.
  - intros Lib ch s s1 zone domain Hprep r Hfree.
    destruct (prepare_inv _ _ _ _ Hprep) as (_ & Hsome).
    destruct (Hsome _ _ eq_refl) as [cl Hcl].
    rewrite Present_prepare, Hprep, (create_step_run _ _ _ _ cl Hcl). simpl.
    unfold Ref.Create. fold r.
    rewrite (Ref_prepare_world _ _ _ _ Hprep), Hfree. by split.
Qed.

Lemma Present_creates_TXT_record_witness :
  provider_calls (trace (Present Scenario.challenge Scenario.start).2)
    = [CallRecordsCreate Scenario.client Scenario.record] /\
  (Present Scenario.challenge Scenario.start).1 = Done None /\
  Ref.records (world (Present Scenario.challenge Scenario.start).2)
    = {[ Ref.record_key Scenario.record := Scenario.record ]}.
Proof.
  assert (prepare Scenario.challenge Scenario.start
          = (Done (inr ("example.com", "_acme-challenge")),
             mkSt Scenario.warm Scenario.world
                  [CallFindZoneByFqdn Scenario.fqdn;
                   CallSecretsGet "default" "ns1-creds"])) as Hprep
    by (vm_compute; reflexivity).
  split.
  - destruct (proj1 Present_creates_TXT_record _ _ _ _ _ _ _ _ Hprep)
      as (cl & r & Hcl & Hr & _ & _ & _ & _ & _ & Hcalls & _).
    injection Hcl as <-. rewrite Hcalls, Hr. reflexivity.
  - destruct (proj2 Present_creates_TXT_record _ _ _ _ _ _ Hprep eq_refl)
      as (Hok & Hstore).
    split; [exact Hok|]. rewrite Hstore. reflexivity.
Defined.

(** ** CleanUp *)

(** C2. Once [CleanUp] reaches its provider step it makes exactly one
    provider call, the deletion of (zone, domain + "." + zone, "TXT") for
    the zone and domain that [parseChallenge] derived, and the provider is
    left as that one deletion leaves it.  Against a provider that keeps
    records by (zone, domain, type), every record under another key is
    after [CleanUp] what it was before.  A [CleanUp] that stops before its
    provider step makes no provider call at all. *)
Theorem CleanUp_delete_target :
  (forall (Lib : GoLib) (W : Type) (Srv : Services W)
          (ch : v1alpha1.ChallengeRequest) (s s1 : St W) (zone domain : string),
     prepare ch s = (Done (inr (zone, domain)), s1) ->
     exists cl,
       ns1Client (solver s1) = Some cl /\
       provider_calls (trace (CleanUp ch s).2)
         = (provider_calls (trace s)
            ++ [CallRecordsDelete cl zone (domain +:+ "." +:+ zone) "TXT"])%list /\
       world (CleanUp ch s).2
         = (records_Delete cl zone (domain +:+ "." +:+ zone) "TXT" (world s1)).2) /\
  (forall (Lib : GoLib) (ch : v1alpha1.ChallengeRequest) (s s1 : St Ref.World)
          (zone domain : string) (k : string * string * string),
     prepare ch s = (Done (inr (zone, domain)), s1) ->
     k <> (zone, domain +:+ "." +:+ zone, "TXT") ->
     Ref.records (world (CleanUp ch s).2) !! k = Ref.records (world s) !! k) /\
  (forall (Lib : GoLib) (W : Type) (Srv : Services W)
          (ch : v1alpha1.ChallengeRequest) (s : St W),
     (forall zone domain s1, prepare ch s <> (Done (inr (zone, domain)), s1)) ->
     provider_calls (trace (CleanUp ch s).2) = provider_calls (trace s)).
Proof.
  split; [|split].
  - intros Lib W Srv ch s s1 zone domain Hprep.
    destruct (prepare_inv _ _ _ _ Hprep) as (Hpc & Hsome).
    destruct (Hsome _ _ eq_refl) as [cl Hcl].
    exists cl. rewrite CleanUp_prepare, Hprep, (delete_step_run _ _ _ cl Hcl).
    simpl. by rewrite provider_calls_app, Hpc.
  - intros Lib ch s s1 zone domain k Hprep Hk.
    destruct (prepare_inv _ _ _ _ Hprep) as (_ & Hsome).
    destruct (Hsome _ _ eq_refl) as [cl Hcl].
    rewrite CleanUp_prepare, Hprep, (delete_step_run _ _ _ cl Hcl). simpl.
    unfold Ref.Delete. rewrite (Ref_prepare_world _ _ _ _ Hprep).
    destruct (Ref.records (world s) !! _); simpl; [|done].
    by rewrite lookup_delete_ne.
  - intros Lib W Srv ch s Hstop. rewrite CleanUp_prepare.
    destruct (prepare ch s) as [[[e|[zone domain]]|msg] s1] eqn:Hprep;
      [| by destruct (Hstop zone domain s1) |];
      by destruct (prepare_inv _ _ _ _ Hprep).
Qed.

Lemma CleanUp_delete_target_witness :
  let s := mkSt Scenario.warm
                (Scenario.world_with [Scenario.record; Scenario.neighbour]) [] in
  provider_calls (trace (CleanUp Scenario.challenge s).2)
    = [CallRecordsDelete Scenario.client "example.com"
                         "_acme-challenge.example.com" "TXT"] /\
  Ref.records (world (CleanUp Scenario.challenge s).2)
    !! Ref.record_key Scenario.neighbour = Some Scenario.neighbour /\
  provider_calls (trace (CleanUp Scenario.malformed s).2) = [].
Proof.
  intros s.
  assert (prepare Scenario.challenge s
          = (Done (inr ("example.com", "_acme-challenge")),
             mkSt Scenario.warm
                  (Scenario.world_with [Scenario.record; Scenario.neighbour])
                  [CallFindZoneByFqdn Scenario.fqdn])) as Hprep
    by (vm_compute; reflexivity).
  split; [|split].
  - destruct (proj1 CleanUp_delete_target _ _ _ _ _ _ _ _ Hprep)
      as (cl & Hcl & Hcalls & _).
    injection Hcl as <-. exact Hcalls.
  - rewrite (proj1 (proj2 CleanUp_delete_target) _ _ _ _ _ _
               (Ref.record_key Scenario.neighbour) Hprep); [reflexivity|].
    vm_compute. discriminate.
  - apply (proj2 (proj2 CleanUp_delete_target) Ref.lib Ref.World Ref.services
             Scenario.malformed s).
    intros zone domain s1. vm_compute. discriminate.
Defined.

(** C5. Once [CleanUp] reaches its delete call, whatever error the provider
    answers with is the error [CleanUp] returns, the error for a record that
    does not exist included. *)
Theorem CleanUp_surfaces_delete_error `{Lib : GoLib} {W : Type} `{Srv : Services W}
    (ch : v1alpha1.ChallengeRequest) (s s1 : St W) (zone domain : string)
    (cl : ns1Rest.Client) (e : error) (w' : W) :
  prepare ch s = (Done (inr (zone, domain)), s1) ->
  ns1Client (solver s1) = Some cl ->
  records_Delete cl zone (domain +:+ "." +:+ zone) "TXT" (world s1) = (Some e, w') ->
  (CleanUp ch s).1 = Done (Some e).
Proof.
  intros Hprep Hcl Hdel.
  by rewrite CleanUp_prepare, Hprep, (delete_step_run _ _ _ cl Hcl), Hdel.
Qed.

Lemma CleanUp_surfaces_delete_error_witness :
  (CleanUp Scenario.challenge Scenario.start).1
    = Done (Some (errors_New "record does not exist")).
Proof.
  refine (CleanUp_surfaces_delete_error Scenario.challenge Scenario.start
            (mkSt Scenario.warm Scenario.world
                  [CallFindZoneByFqdn Scenario.fqdn;
                   CallSecretsGet "default" "ns1-creds"])
            "example.com" "_acme-challenge" Scenario.client
            (errors_New "record does not exist") Scenario.world _ _ _);
    vm_compute; reflexivity.
Defined.

(** C7. [CleanUp] does not read the challenge's [Key]: with any other key in
    its place the call is the same, log of calls included.  Against a
    provider that keeps records by (zone, domain, type), a [CleanUp] that
    reaches its provider step removes the record held under (zone, domain +
    "." + zone, "TXT") whatever its answers are. *)
Theorem CleanUp_ignores_Key :
  (forall (Lib : GoLib) (W : Type) (Srv : Services W)
          (ch : v1alpha1.ChallengeRequest) (key : string) (s : St W),
     CleanUp (with_Key ch key) s = CleanUp ch s) /\
  (forall (Lib : GoLib) (ch : v1alpha1.ChallengeRequest) (s s1 : St Ref.World)
          (zone domain : string) (r : dns.Record_),
     prepare ch s = (Done (inr (zone, domain)), s1) ->
     Ref.records (world s) !! (zone, domain +:+ "." +:+ zone, "TXT") = Some r ->
     (CleanUp ch s).1 = Done None /\
     Ref.records (world (CleanUp ch s).2) !! (zone, domain +:+ "." +:+ zone, "TXT")
       = None).
Proof.
  split; [reflexivity|].
  intros Lib ch s s1 zone domain r Hprep Hrec.
  destruct (prepare_inv _ _ _ _ Hprep) as (_ & Hsome).
  destruct (Hsome _ _ eq_refl) as [cl Hcl].
  rewrite CleanUp_prepare, Hprep, (delete_step_run _ _ _ cl Hcl). simpl.
  unfold Ref.Delete. rewrite (Ref_prepare_world _ _ _ _ Hprep), Hrec. simpl.
  split; [done | apply lookup_delete_eq].
Qed.

Lemma CleanUp_ignores_Key_witness :
  let s := mkSt Scenario.warm (Scenario.world_with [Scenario.rekeyed_record]) [] in
  CleanUp Scenario.rekeyed s = CleanUp Scenario.challenge s /\
  (CleanUp Scenario.challenge s).1 = Done None /\
  Ref.records (world (CleanUp Scenario.challenge s).2)
    !! Ref.record_key Scenario.rekeyed_record = None.
Proof.
  intros s. split.
  - exact (proj1 CleanUp_ignores_Key Ref.lib Ref.World Ref.services
             Scenario.challenge (v1alpha1.Key Scenario.rekeyed) s).
  - refine (proj2 CleanUp_ignores_Key Ref.lib Scenario.challenge s
              (mkSt Scenario.warm (Scenario.world_with [Scenario.rekeyed_record])
                    [CallFindZoneByFqdn Scenario.fqdn])
              "example.com" "_acme-challenge" Scenario.rekeyed_record _ _);
      vm_compute; reflexivity.
Defined.

(** ** The memoised client *)

Section Cached.
Context `{Lib : GoLib} {W : Type} `{Srv : Services W}.
Implicit Types (ch : v1alpha1.ChallengeRequest) (s : St W).

Lemma kept_refl cl s : kept cl s s.
Proof. split; [done|]. exists []. by rewrite app_nil_r. Qed.

Lemma kept_trans cl s1 s2 s3 : kept cl s1 s2 -> kept cl s2 s3 -> kept cl s1 s3.
Proof.
  intros (Hs1 & c1 & Ht1 & Hf1) (Hs2 & c2 & Ht2 & Hf2). split; [congruence|].
  exists (c1 ++ c2)%list. split; [by rewrite Ht2, Ht1, <- app_assoc|].
  by apply Forall_app.
Qed.

Lemma prepare_kept ch s cl r s1 :
  ns1Client (solver s) = Some cl -> prepare ch s = (r, s1) ->
  kept cl s s1 /\ exists x, r = Done x.
Proof.
  intros Hcl. rewrite (prepare_cached _ _ _ Hcl).
  destruct (loadConfig _) as [cfg [e|]];
    [intros [= <- <-]; split; [apply kept_refl | eauto]|].
  destruct (parseChallenge ch s) as [x s0] eqn:Hp.
  apply parseChallenge_inv in Hp as (Hsol & Htr & _ & [[[z d] oe] ->]).
  assert (kept cl s s0) as Hk.
  { split; [done|]. eexists. split; [exact Htr|]. by repeat constructor. }
  destruct oe; intros [= <- <-]; eauto.
Qed.

Lemma serve_kept (r : Request) s cl :
  ns1Client (solver s) = Some cl -> kept cl s (serve r s).2.
Proof.
  intros Hcl. destruct r as [ch|ch]; simpl.
  - rewrite Present_prepare. destruct (prepare ch s) as [x s1] eqn:Hprep.
    destruct (prepare_kept _ _ _ _ _ Hcl Hprep) as (Hk & [[e|[z d]] ->]);
      [done|].
    eapply kept_trans; [exact Hk|].
    rewrite (create_step_run _ _ _ _ cl) by (destruct Hk; congruence).
    split; [done|]. eexists. split; [done|]. by repeat constructor.
  - rewrite CleanUp_prepare. destruct (prepare ch s) as [x s1] eqn:Hprep.
    destruct (prepare_kept _ _ _ _ _ Hcl Hprep) as (Hk & [[e|[z d]] ->]);
      [done|].
    eapply kept_trans; [exact Hk|].
    rewrite (delete_step_run _ _ _ cl) by (destruct Hk; congruence).
    split; [done|]. eexists. split; [done|]. by repeat constructor.
Qed.

Lemma serve_all_kept (rs : list Request) s cl :
  ns1Client (solver s) = Some cl -> kept cl s (serve_all rs s).
Proof.
  revert s. induction rs as [|r rs IH]; intros s Hcl; simpl.
  - apply kept_refl.
  - pose proof (serve_kept r s cl Hcl) as Hk.
    eapply kept_trans; [exact Hk|]. apply IH. destruct Hk. congruence.
Qed.

Lemma prepare_with_Config ch cfgJSON s cl :
  ns1Client (solver s) = Some cl ->
  (loadConfig (v1alpha1.Config ch)).2 = None ->
  (loadConfig cfgJSON).2 = None ->
  prepare (with_Config ch cfgJSON) s = prepare ch s.
Proof.
  intros Hcl H1 H2. rewrite !(prepare_cached _ _ _ Hcl). simpl.
  destruct (loadConfig (v1alpha1.Config ch)) as [c1 [e1|]]; [done|].
  by destruct (loadConfig cfgJSON) as [c2 [e2|]].
Qed.

End Cached.

(** C6. While the receiver's [ns1Client] is set, every [Present] and
    [CleanUp], and every sequence of them, leaves the solver as it is, looks
    no secret up, and sends its provider calls through that client.  The
    config of the call plays no part beyond decoding without error: with any
    other blob that decodes, whatever secret reference, endpoint or
    [ignoreSSL] it holds, the call is the same. *)
Theorem cached_client_is_reused `{Lib : GoLib} {W : Type} `{Srv : Services W}
    (s : St W) (cl : ns1Rest.Client) :
  ns1Client (solver s) = Some cl ->
  (forall rs : list Request,
     let s' := serve_all rs s in
     solver s' = solver s /\
     ns1Client (solver s') = Some cl /\
     secret_lookups (trace s') = secret_lookups (trace s) /\
     exists calls, trace s' = (trace s ++ calls)%list /\ Forall (through cl) calls) /\
  (forall (ch : v1alpha1.ChallengeRequest) (cfgJSON : option apiExtensionsV1.JSON),
     (loadConfig (v1alpha1.Config ch)).2 = None ->
     (loadConfig cfgJSON).2 = None ->
     Present (with_Config ch cfgJSON) s = Present ch s /\
     CleanUp (with_Config ch cfgJSON) s = CleanUp ch s).
Proof.
  intros Hcl. split.
  - intros rs s'. destruct (serve_all_kept rs s cl Hcl) as (Hsol & calls & Htr & Hf).
    fold s' in Hsol, Htr. repeat split; [done | congruence | | eauto].
    rewrite Htr, secret_lookups_app.
    assert (secret_lookups calls = []) as ->; [|by rewrite app_nil_r].
    clear Htr. induction Hf as [|c calls Hc _ IH]; [done|].
    unfold secret_lookups in *. simpl. by destruct c.
  - intros ch cfgJSON H1 H2.
    rewrite !Present_prepare, !CleanUp_prepare.
    by rewrite (prepare_with_Config _ _ _ _ Hcl H1 H2).
Qed.

Lemma cached_client_is_reused_witness :
  let s := mkSt Scenario.warm Scenario.world [] in
  Present Scenario.unconfigured s = Present Scenario.challenge s /\
  serve_all [ReqPresent Scenario.unconfigured; ReqCleanUp Scenario.unconfigured] s
    = mkSt Scenario.warm Scenario.world
        [CallFindZoneByFqdn Scenario.fqdn;
         CallRecordsCreate Scenario.client Scenario.record;
         CallFindZoneByFqdn Scenario.fqdn;
         CallRecordsDelete Scenario.client "example.com"
                           "_acme-challenge.example.com" "TXT"] /\
  solver (serve_all [ReqPresent Scenario.unconfigured;
                     ReqCleanUp Scenario.unconfigured] s) = Scenario.warm.
Proof.
  intros s.
  pose proof (cached_client_is_reused s Scenario.client eq_refl) as (Hall & Hcfg).
  split; [|split].
  - exact (proj1 (Hcfg Scenario.challenge None eq_refl eq_refl)).
  - vm_compute; reflexivity.
  - exact (proj1 (Hall [ReqPresent Scenario.unconfigured;
                        ReqCleanUp Scenario.unconfigured])).
Defined.

(** ** The secret reference *)

(** C4 (amended).  In a solver that holds no provider client yet
    ([ns1Client] is nil), a [Present] or [CleanUp] whose decoded config has an
    empty [apiKeySecretRef.name] or an empty [apiKeySecretRef.key] returns an
    error and calls no provider. *)
Theorem missing_secret_ref_fails_before_provider
    `{Lib : GoLib} {W : Type} `{Srv : Services W}
    (ch : v1alpha1.ChallengeRequest) (s : St W) :
  ns1Client (solver s) = None ->
  cmMetaV1.Name (APIKeySecretRef (loadConfig (v1alpha1.Config ch)).1) = ""
  \/ cmMetaV1.Key (APIKeySecretRef (loadConfig (v1alpha1.Config ch)).1) = "" ->
  ((exists e, (Present ch s).1 = Done (Some e)) /\
   provider_calls (trace (Present ch s).2) = provider_calls (trace s)) /\
  ((exists e, (CleanUp ch s).1 = Done (Some e)) /\
   provider_calls (trace (CleanUp ch s).2) = provider_calls (trace s)).
Proof.
  intros Hnil Href.
  assert (exists e s1, prepare ch s = (Done (inl e), s1)) as (e & s1 & Hprep).
  { unfold prepare. destruct (loadConfig _) as [cfg [e|]]; [eauto|].
    simpl in Href. unfold_M.
    destruct (parseChallenge ch s) as [x s0] eqn:Hp.
    apply parseChallenge_inv in Hp as (Hsol & _ & _ & [[[z d] [e|]] ->]); [eauto|].
    rewrite Hsol, Hnil. unfold setNS1Client.
    destruct (String.eqb_spec (cmMetaV1.Name (APIKeySecretRef cfg)) "") as [_|Hn];
      [eauto|].
    destruct (String.eqb_spec (cmMetaV1.Key (APIKeySecretRef cfg)) "") as [_|Hk];
      [eauto|].
    by destruct Href. }
  destruct (prepare_inv _ _ _ _ Hprep) as (Hpc & _).
  rewrite Present_prepare, CleanUp_prepare, Hprep. simpl.
  repeat split; eauto.
Qed.

Lemma missing_secret_ref_fails_before_provider_witness :
  (Present Scenario.unconfigured Scenario.start).1
    = Done (Some (errors_New "secret for NS1 apiKey not found in 'default'")) /\
  provider_calls (trace (Present Scenario.unconfigured Scenario.start).2) = [].
Proof.
  destruct (missing_secret_ref_fails_before_provider Scenario.unconfigured
              Scenario.start eq_refl (or_introl eq_refl))
    as ((_ & Hcalls) & _).
  split; [vm_compute; reflexivity | exact Hcalls].
Defined.

(** C4 (counterexample).  Once the solver holds a client the guard
    [c.ns1Client == nil] skips [setNS1Client]: the challenge without
    configuration decodes to an empty secret reference, and yet [Present]
    returns nil after calling the provider. *)
Lemma missing_secret_ref_with_cached_client :
  let s := mkSt Scenario.warm Scenario.world [] in
  cmMetaV1.Name (APIKeySecretRef
                   (loadConfig (v1alpha1.Config Scenario.unconfigured)).1) = "" /\
  (Present Scenario.unconfigured s).1 = Done None /\
  provider_calls (trace (Present Scenario.unconfigured s).2)
    = [CallRecordsCreate Scenario.client Scenario.record].
Proof. intros s. repeat split; vm_compute; reflexivity. Qed.

(** * Further properties *)

(** ** The steps, run *)

Section Runs.
Context `{Lib : GoLib} {W : Type} `{Srv : Services W}.
Implicit Types (ch : v1alpha1.ChallengeRequest) (s : St W).

Lemma after_after s (w1 w2 : W) (c1 c2 : list Call) :
  after (after s w1 c1) w2 c2 = after s w2 (c1 ++ c2).
Proof. unfold after. simpl. by rewrite <- app_assoc. Qed.

(** [parseChallenge], by the resolver's answer. *)
Lemma parseChallenge_run ch s :
  parseChallenge ch s =
  let got := util_FindZoneByFqdn (v1alpha1.ResolvedFQDN ch) (world s) in
  (Done (match got.1 with
         | inl err => ("", "", Some err)
         | inr zone => (util.UnFqdn zone, derived_domain ch, None)
         end),
   after s got.2 [CallFindZoneByFqdn (v1alpha1.ResolvedFQDN ch)]).
Proof.
  unfold parseChallenge, derived_domain. unfold_M.
  by destruct (util_FindZoneByFqdn _ (world s)) as [[e|z] w'].
Qed.

(** [setNS1Client] with a complete reference, by the cluster's answer. *)
Lemma setNS1Client_run ch (cfg : ns1DNSProviderConfig) s (k : kubernetes.Clientset) :
  cmMetaV1.Name (APIKeySecretRef cfg) <> "" ->
  cmMetaV1.Key (APIKeySecretRef cfg) <> "" ->
  k8sClient (solver s) = Some k ->
  setNS1Client ch cfg s =
  let ns := v1alpha1.ResourceNamespace ch in
  let name := cmMetaV1.Name (APIKeySecretRef cfg) in
  let key := cmMetaV1.Key (APIKeySecretRef cfg) in
  let got := secrets_Get k ns name (world s) in
  let s1 := after s got.2 [CallSecretsGet ns name] in
  match got.1 with
  | inl err => (Done (Some err), s1)
  | inr secret =>
      match coreV1.Data secret !! key with
      | None =>
          (Done (Some (errors_New ("no key '" +:+ key +:+ "' in secret '"
                                   +:+ ns +:+ "/" +:+ name +:+ "'"))), s1)
      | Some apiKey =>
          (Done None,
           with_client s1 (ns1Rest.NewClient (http_client_for (IgnoreSSL cfg))
                                             apiKey (Endpoint cfg)))
      end
  end.
Proof.
  intros Hn Hk Hk8s. unfold setNS1Client.
  destruct (String.eqb_spec (cmMetaV1.Name (APIKeySecretRef cfg)) ""); [done|].
  destruct (String.eqb_spec (cmMetaV1.Key (APIKeySecretRef cfg)) ""); [done|].
  unfold_M. rewrite Hk8s. simpl.
  destruct (secrets_Get _ _ _ (world s)) as [[e|sec] w']; [done|]. simpl.
  destruct (coreV1.Data sec !! _); [|done].
  unfold http_client_for. by destruct (IgnoreSSL cfg).
Qed.

(** [prepare] on a solver without provider client, once the config has
    decoded and the resolver has answered with a zone. *)
Lemma prepare_fresh ch (cfg : ns1DNSProviderConfig) s (z : string) (w' : W) :
  ns1Client (solver s) = None ->
  loadConfig (v1alpha1.Config ch) = (cfg, None) ->
  util_FindZoneByFqdn (v1alpha1.ResolvedFQDN ch) (world s) = (inr z, w') ->
  prepare ch s =
  match setNS1Client ch cfg
          (after s w' [CallFindZoneByFqdn (v1alpha1.ResolvedFQDN ch)]) with
  | (Done None, s2) => (Done (inr (util.UnFqdn z, derived_domain ch)), s2)
  | (Done (Some err), s2) => (Done (inl err), s2)
  | (Panic msg, s2) => (Panic msg, s2)
  end.
Proof.
  intros Hnil Hcfg Hz. unfold prepare. rewrite Hcfg.
  unfold mbind at 1. unfold M_bind at 1. rewrite parseChallenge_run, Hz. simpl.
  unfold_M. simpl. rewrite Hnil.
  by destruct (setNS1Client _ _ _) as [[[e|]|msg] s2].
Qed.

(** A method that stops in [prepare] returns what [prepare] failed with. *)
Lemma stops_in_prepare ch s (err : error) (s1 : St W) :
  prepare ch s = (Done (inl err), s1) ->
  Present ch s = (Done (Some err), s1) /\ CleanUp ch s = (Done (Some err), s1).
Proof. intros Hp. by rewrite Present_prepare, CleanUp_prepare, Hp. Qed.

End Runs.

(** ** Credentials *)

(** X1. On a solver without provider client, once the config has decoded and
    the zone lookup has succeeded: an empty [apiKeySecretRef.name] makes
    [Present] and [CleanUp] return "secret for NS1 apiKey not found in
    '<namespace>'", whatever the key is; a name with an empty key makes them
    return "no 'key' set in secret '<namespace>/<name>'".  In both cases the
    zone lookup is the only call made and the solver is as before. *)
Theorem incomplete_secret_ref_error `{Lib : GoLib} {W : Type} `{Srv : Services W}
    (ch : v1alpha1.ChallengeRequest) (cfg : ns1DNSProviderConfig) (s : St W)
    (z : string) (w' : W) :
  ns1Client (solver s) = None ->
  loadConfig (v1alpha1.Config ch) = (cfg, None) ->
  util_FindZoneByFqdn (v1alpha1.ResolvedFQDN ch) (world s) = (inr z, w') ->
  let ns := v1alpha1.ResourceNamespace ch in
  let name := cmMetaV1.Name (APIKeySecretRef cfg) in
  let stop := fun msg : string =>
    (Done (Some (errors_New msg)),
     after s w' [CallFindZoneByFqdn (v1alpha1.ResolvedFQDN ch)]) in
  (name = "" ->
     Present ch s = stop ("secret for NS1 apiKey not found in '" +:+ ns +:+ "'") /\
     CleanUp ch s = stop ("secret for NS1 apiKey not found in '" +:+ ns +:+ "'")) /\
  (name <> "" -> cmMetaV1.Key (APIKeySecretRef cfg) = "" ->
     Present ch s
       = stop ("no 'key' set in secret '" +:+ ns +:+ "/" +:+ name +:+ "'") /\
     CleanUp ch s
       = stop ("no 'key' set in secret '" +:+ ns +:+ "/" +:+ name +:+ "'")).
Proof.
  intros Hnil Hcfg Hz ns name stop. split.
  - intros Hname. apply stops_in_prepare.
    rewrite (prepare_fresh _ _ _ _ _ Hnil Hcfg Hz). unfold setNS1Client.
    fold name. by rewrite Hname.
  - intros Hname Hkey. apply stops_in_prepare.
    rewrite (prepare_fresh _ _ _ _ _ Hnil Hcfg Hz). unfold setNS1Client.
    fold name. destruct (String.eqb_spec name ""); [done|]. by rewrite Hkey.
Qed.

Lemma incomplete_secret_ref_error_witness :
  CleanUp Scenario.unconfigured Scenario.start
    = (Done (Some (errors_New "secret for NS1 apiKey not found in 'default'")),
       mkSt Scenario.fresh Scenario.world [CallFindZoneByFqdn Scenario.fqdn]).
Proof.
  exact (proj2 (proj1 (incomplete_secret_ref_error Scenario.unconfigured
                         zero_config Scenario.start "example.com."
                         Scenario.world eq_refl eq_refl eq_refl) eq_refl)).
Defined.

(** X2. On a solver without provider client and with a complete secret
    reference: an error from the cluster's [Secrets(namespace).Get] is what
    [Present] and [CleanUp] return, unchanged.  The secret is asked for in
    the challenge's resource namespace under the config's name, no provider
    call is made, and the solver still has no provider client. *)
Theorem secret_lookup_error_surfaces `{Lib : GoLib} {W : Type} `{Srv : Services W}
    (ch : v1alpha1.ChallengeRequest) (cfg : ns1DNSProviderConfig) (s : St W)
    (k : kubernetes.Clientset) (z : string) (w1 w2 : W) (e : error) :
  ns1Client (solver s) = None ->
  k8sClient (solver s) = Some k ->
  loadConfig (v1alpha1.Config ch) = (cfg, None) ->
  util_FindZoneByFqdn (v1alpha1.ResolvedFQDN ch) (world s) = (inr z, w1) ->
  cmMetaV1.Name (APIKeySecretRef cfg) <> "" ->
  cmMetaV1.Key (APIKeySecretRef cfg) <> "" ->
  secrets_Get k (v1alpha1.ResourceNamespace ch)
              (cmMetaV1.Name (APIKeySecretRef cfg)) w1 = (inl e, w2) ->
  let stopped :=
    (Done (Some e),
     after s w2 [CallFindZoneByFqdn (v1alpha1.ResolvedFQDN ch);
                 CallSecretsGet (v1alpha1.ResourceNamespace ch)
                                (cmMetaV1.Name (APIKeySecretRef cfg))]) in
  Present ch s = stopped /\ CleanUp ch s = stopped.
Proof.
  intros Hnil Hk8s Hcfg Hz Hname Hkey Hget stopped. apply stops_in_prepare.
  rewrite (prepare_fresh _ _ _ _ _ Hnil Hcfg Hz).
  rewrite (setNS1Client_run ch cfg (after s w1 _) k Hname Hkey Hk8s). simpl.
  rewrite Hget. simpl. by rewrite after_after.
Qed.

(** X3. On a solver without provider client and with a complete secret
    reference: when the secret is found but has no entry under the config's
    key, [Present] and [CleanUp] return "no key '<key>' in secret
    '<namespace>/<name>'", make no provider call and leave the solver without
    provider client. *)
Theorem secret_without_key_error `{Lib : GoLib} {W : Type} `{Srv : Services W}
    (ch : v1alpha1.ChallengeRequest) (cfg : ns1DNSProviderConfig) (s : St W)
    (k : kubernetes.Clientset) (z : string) (w1 w2 : W) (secret : coreV1.Secret) :
  ns1Client (solver s) = None ->
  k8sClient (solver s) = Some k ->
  loadConfig (v1alpha1.Config ch) = (cfg, None) ->
  util_FindZoneByFqdn (v1alpha1.ResolvedFQDN ch) (world s) = (inr z, w1) ->
  cmMetaV1.Name (APIKeySecretRef cfg) <> "" ->
  cmMetaV1.Key (APIKeySecretRef cfg) <> "" ->
  secrets_Get k (v1alpha1.ResourceNamespace ch)
              (cmMetaV1.Name (APIKeySecretRef cfg)) w1 = (inr secret, w2) ->
  coreV1.Data secret !! cmMetaV1.Key (APIKeySecretRef cfg) = None ->
  let stopped :=
    (Done (Some (errors_New
       ("no key '" +:+ cmMetaV1.Key (APIKeySecretRef cfg) +:+ "' in secret '"
        +:+ v1alpha1.ResourceNamespace ch +:+ "/"
        +:+ cmMetaV1.Name (APIKeySecretRef cfg) +:+ "'"))),
     after s w2 [CallFindZoneByFqdn (v1alpha1.ResolvedFQDN ch);
                 CallSecretsGet (v1alpha1.ResourceNamespace ch)
                                (cmMetaV1.Name (APIKeySecretRef cfg))]) in
  Present ch s = stopped /\ CleanUp ch s = stopped.
Proof.
  intros Hnil Hk8s Hcfg Hz Hname Hkey Hget Hdata stopped. apply stops_in_prepare.
  rewrite (prepare_fresh _ _ _ _ _ Hnil Hcfg Hz).
  rewrite (setNS1Client_run ch cfg (after s w1 _) k Hname Hkey Hk8s). simpl.
  rewrite Hget. simpl. rewrite Hdata. by rewrite after_after.
Qed.

Lemma secret_lookup_error_surfaces_witness :
  Present Edge.elsewhere Scenario.start
    = (Done (Some (errors_New "secrets ns1-creds not found")),
       mkSt Scenario.fresh Scenario.world
            [CallFindZoneByFqdn Scenario.fqdn;
             CallSecretsGet "staging" "ns1-creds"]).
Proof.
  refine (proj1 (secret_lookup_error_surfaces Edge.elsewhere Ref.scenario_config
                   Scenario.start _ "example.com." Scenario.world Scenario.world
                   (errors_New "secrets ns1-creds not found")
                   eq_refl eq_refl eq_refl eq_refl _ _ eq_refl));
    simpl; discriminate.
Defined.

Lemma secret_without_key_error_witness :
  Present Scenario.challenge (mkSt Scenario.fresh Edge.keyless_world [])
    = (Done (Some (errors_New "no key 'apiKey' in secret 'default/ns1-creds'")),
       mkSt Scenario.fresh Edge.keyless_world
            [CallFindZoneByFqdn Scenario.fqdn;
             CallSecretsGet "default" "ns1-creds"]).
Proof.
  refine (proj1 (secret_without_key_error Scenario.challenge Ref.scenario_config
                   (mkSt Scenario.fresh Edge.keyless_world []) _ "example.com."
                   Edge.keyless_world Edge.keyless_world
                   {| coreV1.Data := {[ "token" := "s3cr3t" ]} |}
                   eq_refl eq_refl eq_refl eq_refl _ _ eq_refl eq_refl));
    simpl; discriminate.
Defined.

(** X4. On a solver without provider client, when the secret holds a value
    under the config's key: the provider client is built from that value,
    taken as it is, the config's endpoint and the [ignoreSSL] flag; the call
    consults the resolver, then the cluster, then the provider, once each,
    [Present] with the creation of the challenge's record and [CleanUp] with
    the deletion; and the client is stored in the solver whatever the
    provider answers. *)
Theorem first_call_builds_client `{Lib : GoLib} {W : Type} `{Srv : Services W}
    (ch : v1alpha1.ChallengeRequest) (cfg : ns1DNSProviderConfig) (s : St W)
    (k : kubernetes.Clientset) (z : string) (w1 w2 : W) (secret : coreV1.Secret)
    (apiKey : string) :
  ns1Client (solver s) = None ->
  k8sClient (solver s) = Some k ->
  loadConfig (v1alpha1.Config ch) = (cfg, None) ->
  util_FindZoneByFqdn (v1alpha1.ResolvedFQDN ch) (world s) = (inr z, w1) ->
  cmMetaV1.Name (APIKeySecretRef cfg) <> "" ->
  cmMetaV1.Key (APIKeySecretRef cfg) <> "" ->
  secrets_Get k (v1alpha1.ResourceNamespace ch)
              (cmMetaV1.Name (APIKeySecretRef cfg)) w1 = (inr secret, w2) ->
  coreV1.Data secret !! cmMetaV1.Key (APIKeySecretRef cfg) = Some apiKey ->
  let cl := ns1Rest.NewClient (http_client_for (IgnoreSSL cfg)) apiKey
                              (Endpoint cfg) in
  let zone := util.UnFqdn z in
  let domain := derived_domain ch in
  let lookups := [CallFindZoneByFqdn (v1alpha1.ResolvedFQDN ch);
                  CallSecretsGet (v1alpha1.ResourceNamespace ch)
                                 (cmMetaV1.Name (APIKeySecretRef cfg))] in
  let record := challenge_record zone domain (v1alpha1.Key ch) in
  (trace (Present ch s).2
     = (trace s ++ lookups ++ [CallRecordsCreate cl record])%list /\
   world (Present ch s).2 = (records_Create cl record w2).2 /\
   solver (Present ch s).2 = {| k8sClient := Some k; ns1Client := Some cl |}) /\
  (trace (CleanUp ch s).2
     = (trace s ++ lookups
        ++ [CallRecordsDelete cl zone (domain +:+ "." +:+ zone) "TXT"])%list /\
   world (CleanUp ch s).2
     = (records_Delete cl zone (domain +:+ "." +:+ zone) "TXT" w2).2 /\
   solver (CleanUp ch s).2 = {| k8sClient := Some k; ns1Client := Some cl |}).
Proof.
  intros Hnil Hk8s Hcfg Hz Hname Hkey Hget Hdata cl zone domain lookups record.
  assert (prepare ch s
          = (Done (inr (zone, domain)), with_client (after s w2 lookups) cl))
    as Hprep.
  { rewrite (prepare_fresh _ _ _ _ _ Hnil Hcfg Hz).
    rewrite (setNS1Client_run ch cfg (after s w1 _) k Hname Hkey Hk8s). simpl.
    rewrite Hget. simpl. rewrite Hdata. by rewrite after_after. }
  rewrite Present_prepare, CleanUp_prepare, Hprep.
  rewrite (create_step_run _ _ _ _ cl), (delete_step_run _ _ _ cl) by done.
  simpl. rewrite Hk8s, <- !app_assoc. by repeat split.
Qed.

Lemma first_call_builds_client_witness :
  trace (CleanUp Scenario.challenge Scenario.start).2
    = [CallFindZoneByFqdn Scenario.fqdn;
       CallSecretsGet "default" "ns1-creds";
       CallRecordsDelete Scenario.client "example.com"
                         "_acme-challenge.example.com" "TXT"] /\
  solver (CleanUp Scenario.challenge Scenario.start).2 = Scenario.warm.
Proof.
  assert (cmMetaV1.Name (APIKeySecretRef Ref.scenario_config) <> "") as Hname
    by (simpl; discriminate).
  assert (cmMetaV1.Key (APIKeySecretRef Ref.scenario_config) <> "") as Hkey
    by (simpl; discriminate).
  assert (loadConfig (v1alpha1.Config Scenario.challenge)
          = (Ref.scenario_config, None)) as Hcfg by reflexivity.
  destruct (first_call_builds_client (Lib:=Ref.lib) (Srv:=Ref.services)
              Scenario.challenge Ref.scenario_config
              Scenario.start _ "example.com." Scenario.world Scenario.world
              {| coreV1.Data := {[ "apiKey" := "s3cr3t" ]} |} "s3cr3t"
              eq_refl eq_refl Hcfg eq_refl Hname Hkey eq_refl eq_refl)
    as (_ & Htrace & _ & Hsolver).
  split; [exact Htrace | exact Hsolver].
Defined.

(** ** The calls a method makes *)

Section Calls.
Context `{Lib : GoLib} {W : Type} `{Srv : Services W}.
Implicit Types (ch : v1alpha1.ChallengeRequest) (s : St W).






End Calls.



(** ** The solver's life cycle *)



(** X8. A solver that holds no cluster client and no provider client (one
    on which [Initialize] has not run) panics on the nil [k8sClient] as soon
    as a call needs the secret: with a config that decodes to a complete
    secret reference and a zone lookup that succeeds, [Present] and [CleanUp]
    do not return, and the zone lookup is the only call they made. *)
Theorem uninitialised_solver_panics `{Lib : GoLib} {W : Type} `{Srv : Services W}
    (ch : v1alpha1.ChallengeRequest) (cfg : ns1DNSProviderConfig) (s : St W)
    (z : string) (w' : W) :
  k8sClient (solver s) = None ->
  ns1Client (solver s) = None ->
  loadConfig (v1alpha1.Config ch) = (cfg, None) ->
  util_FindZoneByFqdn (v1alpha1.ResolvedFQDN ch) (world s) = (inr z, w') ->
  cmMetaV1.Name (APIKeySecretRef cfg) <> "" ->
  cmMetaV1.Key (APIKeySecretRef cfg) <> "" ->
  let crashed :=
    (Panic "invalid memory address or nil pointer dereference",
     after s w' [CallFindZoneByFqdn (v1alpha1.ResolvedFQDN ch)]) in
  Present ch s = crashed /\ CleanUp ch s = crashed.
Proof.
  intros Hk8s Hnil Hcfg Hz Hname Hkey crashed.
  assert (prepare ch s
          = (Panic "invalid memory address or nil pointer dereference",
             after s w' [CallFindZoneByFqdn (v1alpha1.ResolvedFQDN ch)]))
    as Hprep.
  { rewrite (prepare_fresh _ _ _ _ _ Hnil Hcfg Hz). unfold setNS1Client.
    destruct (String.eqb_spec (cmMetaV1.Name (APIKeySecretRef cfg)) ""); [done|].
    destruct (String.eqb_spec (cmMetaV1.Key (APIKeySecretRef cfg)) ""); [done|].
    unfold_M. simpl. by rewrite Hk8s. }
  rewrite Present_prepare, CleanUp_prepare, Hprep. by split.
Qed.

Lemma uninitialised_solver_panics_witness :
  Present Scenario.challenge (mkSt Edge.blank Scenario.world [])
    = (Panic "invalid memory address or nil pointer dereference",
       mkSt Edge.blank Scenario.world [CallFindZoneByFqdn Scenario.fqdn]).
Proof.
  refine (proj1 (uninitialised_solver_panics (Lib:=Ref.lib) (Srv:=Ref.services)
                   Scenario.challenge Ref.scenario_config
                   (mkSt Edge.blank Scenario.world []) "example.com."
                   Scenario.world eq_refl eq_refl eq_refl eq_refl _ _));
    simpl; discriminate.
Defined.

(** X9. The zone lookup comes before everything that concerns credentials:
    when the config decodes and [util.FindZoneByFqdn] fails, [Present] and
    [CleanUp] return its error unchanged after that one call, whether or not
    the solver holds a provider client and whatever the secret reference
    is. *)
Theorem zone_lookup_error_surfaces `{Lib : GoLib} {W : Type} `{Srv : Services W}
    (ch : v1alpha1.ChallengeRequest) (s : St W) (e : error) (w' : W) :
  (loadConfig (v1alpha1.Config ch)).2 = None ->
  util_FindZoneByFqdn (v1alpha1.ResolvedFQDN ch) (world s) = (inl e, w') ->
  let stopped :=
    (Done (Some e), after s w' [CallFindZoneByFqdn (v1alpha1.ResolvedFQDN ch)]) in
  Present ch s = stopped /\ CleanUp ch s = stopped.
Proof.
  intros Hcfg Hz stopped. apply stops_in_prepare. unfold prepare.
  destruct (loadConfig _) as [cfg [e'|]]; [done|].
  unfold mbind at 1. unfold M_bind at 1. by rewrite parseChallenge_run, Hz.
Qed.

Lemma zone_lookup_error_surfaces_witness :
  CleanUp Edge.unresolvable (mkSt Scenario.warm Scenario.world [])
    = (Done (Some (errors_New
         "could not find the start of authority for _acme-challenge.example.net.")),
       mkSt Scenario.warm Scenario.world
            [CallFindZoneByFqdn "_acme-challenge.example.net."]).
Proof.
  exact (proj2 (zone_lookup_error_surfaces (Lib:=Ref.lib) (Srv:=Ref.services)
                  Edge.unresolvable (mkSt Scenario.warm Scenario.world [])
                  (errors_New
                     "could not find the start of authority for _acme-challenge.example.net.")
                  Scenario.world eq_refl eq_refl)).
Defined.

(** ** Present and CleanUp against the reference provider *)

Section RefRuns.
Context `{Lib : GoLib}.
Implicit Types (ch : v1alpha1.ChallengeRequest) (s : St Ref.World).

(** [Present] past [prepare]: it returns nil, and the store gains the
    challenge's record unless one is held under its key. *)
Lemma Ref_Present ch s s1 (zone domain : string) :
  prepare ch s = (Done (inr (zone, domain)), s1) ->
  let r := challenge_record zone domain (v1alpha1.Key ch) in
  (Present ch s).1 = Done None /\
  solver (Present ch s).2 = solver s1 /\
  Ref.zones (world (Present ch s).2) = Ref.zones (world s) /\
  Ref.records (world (Present ch s).2)
    = match Ref.records (world s) !! Ref.record_key r with
      | Some _ => Ref.records (world s)
      | None => <[Ref.record_key r := r]> (Ref.records (world s))
      end.
Proof.
  intros Hprep r.
  destruct (prepare_inv _ _ _ _ Hprep) as (_ & Hsome).
  destruct (Hsome _ _ eq_refl) as [cl Hcl].
  rewrite Present_prepare, Hprep, (create_step_run _ _ _ _ cl Hcl). simpl.
  unfold Ref.Create. fold r. rewrite (Ref_prepare_world _ _ _ _ Hprep).
  by destruct (Ref.records (world s) !! Ref.record_key r).
Qed.

(** [CleanUp] past [prepare]: the store loses what it held under the
    deleted key, and the provider's error for a missing record is what
    [CleanUp] returns. *)
Lemma Ref_CleanUp ch s s1 (zone domain : string) :
  prepare ch s = (Done (inr (zone, domain)), s1) ->
  let k := (zone, domain +:+ "." +:+ zone, "TXT") in
  (CleanUp ch s).1
    = Done (match Ref.records (world s) !! k with
            | Some _ => None
            | None => Some (errors_New "record does not exist")
            end) /\
  solver (CleanUp ch s).2 = solver s1 /\
  Ref.zones (world (CleanUp ch s).2) = Ref.zones (world s) /\
  Ref.records (world (CleanUp ch s).2) = delete k (Ref.records (world s)).
Proof.
  intros Hprep k.
  destruct (prepare_inv _ _ _ _ Hprep) as (_ & Hsome).
  destruct (Hsome _ _ eq_refl) as [cl Hcl].
  rewrite CleanUp_prepare, Hprep, (delete_step_run _ _ _ cl Hcl). simpl.
  unfold Ref.Delete. fold k. rewrite (Ref_prepare_world _ _ _ _ Hprep).
  destruct (Ref.records (world s) !! k) eqn:Hk; simpl; [done|].
  by rewrite delete_id.
Qed.

(** Where [dns.NewRecord] puts the challenge's record. *)
Lemma challenge_record_key (zone domain key : string) :
  Ref.record_key (challenge_record zone domain key)
  = (zone,
     if Strings.HasSuffix (strings_ToLower domain) (strings_ToLower zone)
     then domain else domain +:+ "." +:+ zone,
     "TXT").
Proof.
  unfold Ref.record_key, challenge_record, dns_NewRecord. simpl.
  by destruct (Strings.HasSuffix _ _).
Qed.

End RefRuns.

Section MoreStringFacts.

#[local] Arguments String.append !_ _ / : simpl nomatch.

Lemma length_append (a b : string) :
  String.length (a +:+ b) = (String.length a + String.length b)%nat.
Proof. induction a as [|c a IH]; simpl; [done | by rewrite IH]. Qed.

Lemma append_longer (d rest : string) : rest <> "" -> d <> d +:+ rest.
Proof.
  intros Hrest Heq. apply (f_equal String.length) in Heq.
  rewrite length_append in Heq. destruct rest; [done|]. simpl in Heq. lia.
Qed.

Lemma append_assoc (a b c : string) : (a +:+ b) +:+ c = a +:+ (b +:+ c).
Proof. induction a as [|x a IH]; simpl; [done | by rewrite IH]. Qed.

Lemma append_nil_r (a : string) : a +:+ "" = a.
Proof. induction a as [|x a IH]; simpl; [done | by rewrite IH]. Qed.

(** A slice from the start is a prefix. *)
Lemma substring_0_prefix (n : nat) (s : string) :
  exists rest, s = String.substring 0 n s +:+ rest.
Proof.
  revert n. induction s as [|c s IH]; intros [|n]; simpl;
    try (eexists; reflexivity).
  destruct (IH n) as [rest Hrest]. exists rest. by rewrite <- Hrest.
Qed.

End MoreStringFacts.

(** X10. Against a provider that keeps records by (zone, domain, type) and
    already holds one under the key of the challenge's record, [Present]
    returns nil and the store is what it was: the record kept is the old
    one, with its answers, whether or not they are the challenge's key. *)
Theorem Present_keeps_existing_record `{Lib : GoLib}
    (ch : v1alpha1.ChallengeRequest) (s s1 : St Ref.World) (zone domain : string)
    (held : dns.Record_) :
  prepare ch s = (Done (inr (zone, domain)), s1) ->
  Ref.records (world s)
    !! Ref.record_key (challenge_record zone domain (v1alpha1.Key ch)) = Some held ->
  (Present ch s).1 = Done None /\
  Ref.records (world (Present ch s).2) = Ref.records (world s).
Proof.
  intros Hprep Hheld. destruct (Ref_Present _ _ _ _ _ Hprep) as (Hok & _ & _ & Hrec).
  split; [exact Hok|]. rewrite Hrec. by rewrite Hheld.
Qed.

Lemma Present_keeps_existing_record_witness :
  let s := mkSt Scenario.warm (Scenario.world_with [Scenario.rekeyed_record]) [] in
  (Present Scenario.challenge s).1 = Done None /\
  Ref.records (world (Present Scenario.challenge s).2)
    !! Ref.record_key Scenario.record = Some Scenario.rekeyed_record.
Proof.
  intros s.
  assert (prepare Scenario.challenge s
          = (Done (inr ("example.com", "_acme-challenge")),
             mkSt Scenario.warm (Scenario.world_with [Scenario.rekeyed_record])
                  [CallFindZoneByFqdn Scenario.fqdn])) as Hprep
    by (vm_compute; reflexivity).
  destruct (Present_keeps_existing_record (Lib:=Ref.lib) Scenario.challenge s _
              "example.com" "_acme-challenge" Scenario.rekeyed_record Hprep
              eq_refl) as (Hok & Hrec).
  split; [exact Hok|]. rewrite Hrec. reflexivity.
Defined.

(** X11. Against a provider that keeps records by (zone, domain, type): when
    the derived domain does not already end with the zone (letter case
    apart) and no record is held under (zone, domain + "." + zone, "TXT"),
    [Present] stores the challenge's record under exactly that key and
    returns nil, and a [CleanUp] of the same challenge right after returns
    nil and leaves the store as it was before [Present]. *)
Theorem Present_then_CleanUp_restores `{Lib : GoLib}
    (ch : v1alpha1.ChallengeRequest) (s s1 : St Ref.World) (zone domain : string) :
  prepare ch s = (Done (inr (zone, domain)), s1) ->
  Strings.HasSuffix (strings_ToLower domain) (strings_ToLower zone) = false ->
  Ref.records (world s) !! (zone, domain +:+ "." +:+ zone, "TXT") = None ->
  let s2 := (Present ch s).2 in
  (Present ch s).1 = Done None /\
  Ref.records (world s2) !! (zone, domain +:+ "." +:+ zone, "TXT")
    = Some (challenge_record zone domain (v1alpha1.Key ch)) /\
  (CleanUp ch s2).1 = Done None /\
  Ref.records (world (CleanUp ch s2).2) = Ref.records (world s).
Proof.
  intros Hprep Hsuffix Hfree s2.
  destruct (Ref_Present _ _ _ _ _ Hprep) as (Hok & Hsol & Hz & Hrec).
  fold s2 in Hsol, Hz, Hrec.
  rewrite challenge_record_key, Hsuffix, Hfree in Hrec.
  destruct (Ref_prepare_again ch s s1 zone domain s2 Hprep Hsol Hz)
    as (s3 & Hprep2 & _).
  destruct (Ref_CleanUp _ _ _ _ _ Hprep2) as (Hok2 & _ & _ & Hrec2).
  rewrite Hrec, lookup_insert_eq in Hok2.
  repeat split; [exact Hok | by rewrite Hrec, lookup_insert_eq | exact Hok2 |].
  rewrite Hrec2, Hrec. by apply delete_insert_id.
Qed.

Lemma Present_then_CleanUp_restores_witness :
  let s2 := (Present Scenario.challenge Scenario.start).2 in
  (CleanUp Scenario.challenge s2).1 = Done None /\
  Ref.records (world (CleanUp Scenario.challenge s2).2) = ∅.
Proof.
  intros s2.
  assert (prepare Scenario.challenge Scenario.start
          = (Done (inr ("example.com", "_acme-challenge")),
             mkSt Scenario.warm Scenario.world
                  [CallFindZoneByFqdn Scenario.fqdn;
                   CallSecretsGet "default" "ns1-creds"])) as Hprep
    by (vm_compute; reflexivity).
  destruct (Present_then_CleanUp_restores (Lib:=Ref.lib) Scenario.challenge
              Scenario.start _ "example.com" "_acme-challenge" Hprep
              eq_refl eq_refl) as (_ & _ & Hok & Hrec).
  split; [exact Hok | exact Hrec].
Defined.

(** X12. Against a provider that keeps records by (zone, domain, type): when
    the derived domain already ends with the zone (letter case apart), as it
    does when [parseChallenge] falls back to the whole FQDN,
    [dns.NewRecord] leaves the domain as it is and [Present] stores the
    record under (zone, domain, "TXT"), while [CleanUp] asks for the deletion
    of (zone, domain + "." + zone, "TXT").  With no record held under that
    longer name, the [CleanUp] that follows [Present] returns the provider's
    error for a missing record and the record stays in the store. *)
Theorem CleanUp_misses_unqualified_record `{Lib : GoLib}
    (ch : v1alpha1.ChallengeRequest) (s s1 : St Ref.World) (zone domain : string) :
  prepare ch s = (Done (inr (zone, domain)), s1) ->
  Strings.HasSuffix (strings_ToLower domain) (strings_ToLower zone) = true ->
  Ref.records (world s) !! (zone, domain +:+ "." +:+ zone, "TXT") = None ->
  let s2 := (Present ch s).2 in
  (Present ch s).1 = Done None /\
  is_Some (Ref.records (world s2) !! (zone, domain, "TXT")) /\
  (CleanUp ch s2).1 = Done (Some (errors_New "record does not exist")) /\
  Ref.records (world (CleanUp ch s2).2) = Ref.records (world s2).
Proof.
  intros Hprep Hsuffix Hfree s2.
  destruct (Ref_Present _ _ _ _ _ Hprep) as (Hok & Hsol & Hz & Hrec).
  fold s2 in Hsol, Hz, Hrec. rewrite challenge_record_key, Hsuffix in Hrec.
  assert ((zone, domain, "TXT") <> (zone, domain +:+ "." +:+ zone, "TXT")) as Hne.
  { intros [= Heq]. by apply append_longer in Heq. }
  assert (Ref.records (world s2) !! (zone, domain +:+ "." +:+ zone, "TXT") = None
          /\ is_Some (Ref.records (world s2) !! (zone, domain, "TXT")))
    as (Hfree2 & Hheld).
  { rewrite Hrec. destruct (Ref.records (world s) !! (zone, domain, "TXT")) eqn:Hk.
    - by rewrite Hk.
    - by rewrite lookup_insert_ne, lookup_insert_eq. }
  destruct (Ref_prepare_again ch s s1 zone domain s2 Hprep Hsol Hz)
    as (s3 & Hprep2 & _).
  destruct (Ref_CleanUp _ _ _ _ _ Hprep2) as (Hret & _ & _ & Hrec2).
  rewrite Hfree2 in Hret.
  repeat split; [exact Hok | exact Hheld | exact Hret |].
  rewrite Hrec2. by apply delete_id.
Qed.

Lemma CleanUp_misses_unqualified_record_witness :
  let s2 := (Present Edge.foreign_zone Scenario.start).2 in
  Ref.records (world s2) !! ("example.com", "_acme-challenge.example.com", "TXT")
    = Some Edge.foreign_record /\
  (CleanUp Edge.foreign_zone s2).1
    = Done (Some (errors_New "record does not exist")).
Proof.
  intros s2.
  assert (prepare Edge.foreign_zone Scenario.start
          = (Done (inr ("example.com", "_acme-challenge.example.com")),
             mkSt Scenario.warm Scenario.world
                  [CallFindZoneByFqdn Scenario.fqdn;
                   CallSecretsGet "default" "ns1-creds"])) as Hprep
    by (vm_compute; reflexivity).
  destruct (CleanUp_misses_unqualified_record (Lib:=Ref.lib) Edge.foreign_zone
              Scenario.start _ "example.com" "_acme-challenge.example.com" Hprep
              eq_refl eq_refl) as (_ & _ & Hret & _).
  split; [reflexivity | exact Hret].
Defined.

(** X13. Against a provider that keeps records by (zone, domain, type) and
    reports the deletion of a missing record as an error, [CleanUp] is not
    repeatable: after a [CleanUp] that returned nil, the same [CleanUp] again
    returns that error and leaves the store as it is. *)
Theorem CleanUp_twice_reports_missing `{Lib : GoLib}
    (ch : v1alpha1.ChallengeRequest) (s s2 : St Ref.World) :
  CleanUp ch s = (Done None, s2) ->
  (CleanUp ch s2).1 = Done (Some (errors_New "record does not exist")) /\
  Ref.records (world (CleanUp ch s2).2) = Ref.records (world s2).
Proof.
  intros Hrun.
  assert (exists zone domain s1, prepare ch s = (Done (inr (zone, domain)), s1))
    as (zone & domain & s1 & Hprep).
  { revert Hrun. rewrite CleanUp_prepare.
    destruct (prepare ch s) as [[[e|[z d]]|msg] s1]; try done. eauto. }
  destruct (Ref_CleanUp _ _ _ _ _ Hprep) as (_ & Hsol & Hz & Hrec).
  rewrite Hrun in Hsol, Hz, Hrec. simpl in Hsol, Hz, Hrec.
  destruct (Ref_prepare_again ch s s1 zone domain s2 Hprep Hsol Hz)
    as (s3 & Hprep2 & _).
  destruct (Ref_CleanUp _ _ _ _ _ Hprep2) as (Hret & _ & _ & Hrec2).
  rewrite Hrec, lookup_delete_eq in Hret. split; [exact Hret|].
  rewrite Hrec2. apply delete_id. by rewrite Hrec, lookup_delete_eq.
Qed.

Lemma CleanUp_twice_reports_missing_witness :
  let s := mkSt Scenario.warm (Scenario.world_with [Scenario.record]) [] in
  (CleanUp Scenario.challenge (CleanUp Scenario.challenge s).2).1
    = Done (Some (errors_New "record does not exist")).
Proof.
  intros s.
  assert (CleanUp Scenario.challenge s
          = (Done None, (CleanUp Scenario.challenge s).2)) as Hrun
    by (vm_compute; reflexivity).
  exact (proj1 (CleanUp_twice_reports_missing (Lib:=Ref.lib) Scenario.challenge s
                  _ Hrun)).
Defined.

(** ** More on zone and domain *)

(** X14. In what [parseChallenge] returns without error, the domain is a
    prefix of the challenge's resolved FQDN and is fixed by the challenge's
    resolved FQDN and resolved zone alone, whatever the resolver answers;
    the zone is fixed by the resolved FQDN and the resolver alone, whatever
    the challenge's resolved zone is. *)
Theorem parseChallenge_zone_and_domain {W : Type} `{Srv : Services W}
    (ch ch' : v1alpha1.ChallengeRequest) (s s' t t' : St W)
    (zone domain zone' domain' : string) :
  parseChallenge ch s = (Done (zone, domain, None), s') ->
  parseChallenge ch' t = (Done (zone', domain', None), t') ->
  (exists rest, v1alpha1.ResolvedFQDN ch = domain +:+ rest) /\
  (v1alpha1.ResolvedFQDN ch' = v1alpha1.ResolvedFQDN ch ->
   v1alpha1.ResolvedZone ch' = v1alpha1.ResolvedZone ch -> domain' = domain) /\
  (v1alpha1.ResolvedFQDN ch' = v1alpha1.ResolvedFQDN ch ->
   world t = world s -> zone' = zone).
Proof.
  rewrite !parseChallenge_run. simpl.
  destruct (util_FindZoneByFqdn _ (world s)) as [[e|z] w1] eqn:H1; [done|].
  destruct (util_FindZoneByFqdn _ (world t)) as [[e|z'] w2] eqn:H2; [done|].
  simpl. intros [= <- <- _] [= <- <- _]. repeat split.
  - unfold derived_domain, Strings.slice_to, util.UnFqdn.
    destruct (negb _); [apply substring_0_prefix|].
    destruct (String.get _ _) as [c|]; [|by exists ""; rewrite append_nil_r].
    destruct (_ && _); [apply substring_0_prefix | by exists ""; rewrite append_nil_r].
  - intros Hf Hz. unfold derived_domain. by rewrite Hf, Hz.
  - intros Hf Hw. rewrite Hf, Hw, H1 in H2. by injection H2 as <- _.
Qed.

Lemma parseChallenge_zone_and_domain_witness :
  (exists rest, Scenario.fqdn = "_acme-challenge" +:+ rest) /\
  parseChallenge Edge.foreign_zone Scenario.start
    = (Done ("example.com", "_acme-challenge.example.com", None),
       mkSt Scenario.fresh Scenario.world [CallFindZoneByFqdn Scenario.fqdn]).
Proof.
  split; [|reflexivity].
  exact (proj1 (parseChallenge_zone_and_domain (Srv:=Ref.services)
                  Scenario.challenge Edge.foreign_zone
                  Scenario.start _ Scenario.start _
                  "example.com" "_acme-challenge"
                  "example.com" "_acme-challenge.example.com"
                  eq_refl eq_refl)).
Defined.

(** X15. With an empty resolved zone the separator looked for is the bare
    dot: when the resolved FQDN has a dot, the domain [parseChallenge]
    returns is the FQDN's first label, the part before its first dot. *)
Theorem empty_resolved_zone_gives_first_label {W : Type} `{Srv : Services W}
    (ch : v1alpha1.ChallengeRequest) (s s' : St W) (zone domain : string) :
  parseChallenge ch s = (Done (zone, domain, None), s') ->
  v1alpha1.ResolvedZone ch = "" ->
  Strings.Contains (v1alpha1.ResolvedFQDN ch) "." ->
  (exists rest, v1alpha1.ResolvedFQDN ch = domain +:+ "." +:+ rest) /\
  ~ Strings.Contains domain ".".
Proof.
  rewrite parseChallenge_run. simpl.
  destruct (util_FindZoneByFqdn _ (world s)) as [[e|z] w1]; [done|].
  simpl. intros [= _ <- _] Hzone Hdot. unfold derived_domain. rewrite Hzone.
  change ("." +:+ "") with ".".
  destruct (Index_found _ _ Hdot) as (Hge & rest & Hs & Hfirst).
  destruct (Z.eqb_spec (Strings.Index (v1alpha1.ResolvedFQDN ch) ".") (-1));
    [lia|]. simpl.
  set (d := Strings.slice_to _ _) in *. split; [by exists rest|].
  intros (a & b & Hd).
  specialize (Hfirst a (b +:+ "." +:+ rest)).
  rewrite Hs, Hd, !append_assoc in Hfirst. specialize (Hfirst eq_refl).
  rewrite !length_append in Hfirst. simpl in Hfirst. lia.
Qed.

Lemma empty_resolved_zone_gives_first_label_witness :
  parseChallenge Edge.no_zone Scenario.start
    = (Done ("example.com", "_acme-challenge", None),
       mkSt Scenario.fresh Scenario.world [CallFindZoneByFqdn Scenario.fqdn]) /\
  ~ Strings.Contains "_acme-challenge" ".".
Proof.
  split; [reflexivity|].
  refine (proj2 (empty_resolved_zone_gives_first_label (Srv:=Ref.services)
                   Edge.no_zone Scenario.start _ "example.com" "_acme-challenge"
                   eq_refl eq_refl _)).
  by exists "_acme-challenge", "example.com.".
Defined.

(** ** When the provider client gets stored *)

Section Stored.
Context `{Lib : GoLib} {W : Type} `{Srv : Services W}.
Implicit Types (ch : v1alpha1.ChallengeRequest) (s : St W).

(** A [prepare] that does not succeed leaves the solver as it was. *)
Lemma prepare_failure_solver ch s r s1 :
  prepare ch s = (r, s1) -> (forall zd, r <> Done (inr zd)) ->
  solver s1 = solver s.
Proof.
  unfold prepare.
  destruct (loadConfig _) as [cfg [e|]]; [by intros [= <- <-]|].
  unfold mbind at 1. unfold M_bind at 1. rewrite parseChallenge_run. simpl.
  destruct (util_FindZoneByFqdn _ (world s)) as [[e|z] w']; simpl;
    [unfold_M; by intros [= <- <-]|].
  unfold_M. simpl. destruct (ns1Client (solver s)); [by intros [= <- <-]|].
  destruct (setNS1Client ch cfg _) as [y s2] eqn:Hset.
  pose proof (setNS1Client_inv _ _ _ _ _ Hset) as (_ & _ & _ & Hfail).
  destruct y as [[e|]|msg]; intros [= <- <-] Hno;
    [| by destruct (Hno (util.UnFqdn z, derived_domain ch)) |];
    (destruct Hfail as [->|(w2 & ev & ->)]; [done| |]; done).
Qed.

Lemma provider_calls_grow (l : list Call) (c : Call) :
  is_provider_call c = true -> provider_calls (l ++ [c]) <> provider_calls l.
Proof.
  intros Hc Heq. apply (f_equal length) in Heq.
  rewrite provider_calls_app, length_app in Heq.
  unfold provider_calls in Heq at 2. simpl in Heq. rewrite Hc in Heq.
  simpl in Heq. lia.
Qed.

End Stored.

(** X16. After [Present] or [CleanUp] the solver holds a provider client
    exactly when it held one before or the call went as far as the provider:
    a call that fails on the way there stores no client, so the next call
    starts the construction again, and a call that reaches the provider
    keeps the client whatever the provider answers. *)
Theorem client_stored_iff_provider_reached
    `{Lib : GoLib} {W : Type} `{Srv : Services W}
    (req : Request) (s : St W) :
  is_Some (ns1Client (solver (serve req s).2)) <->
  is_Some (ns1Client (solver s)) \/
  provider_calls (trace (serve req s).2) <> provider_calls (trace s).
Proof.
  assert (forall ch y s1, prepare ch s = (y, s1) ->
            (forall zd, y <> Done (inr zd)) ->
            is_Some (ns1Client (solver s1)) <->
            is_Some (ns1Client (solver s)) \/
            provider_calls (trace s1) <> provider_calls (trace s)) as Hstop.
  { intros ch y s1 Hprep Hno.
    rewrite (prepare_failure_solver _ _ _ _ Hprep Hno).
    destruct (prepare_inv _ _ _ _ Hprep) as (-> & _).
    split; [by left | by intros [?|?]]. }
  destruct req as [ch|ch]; simpl;
    [rewrite Present_prepare | rewrite CleanUp_prepare];
    destruct (prepare ch s) as [[[e|[z d]]|msg] s1] eqn:Hprep;
    try (by apply (Hstop ch _ _ Hprep));
    destruct (prepare_inv _ _ _ _ Hprep) as (Hpc & Hsome);
    destruct (Hsome _ _ eq_refl) as [cl Hcl];
    first [ rewrite (create_step_run _ _ _ _ cl Hcl)
          | rewrite (delete_step_run _ _ _ cl Hcl) ];
    simpl; rewrite Hcl, <- Hpc;
    (split; [intros _; right; by apply provider_calls_grow | eauto]).
Qed.

(** ** Starting the webhook *)

(** X17. [main] panics with "GROUP_NAME must be specified" exactly when the
    environment variable GROUP_NAME is unset or empty; otherwise it starts
    the webhook server under that group name with a solver that holds
    neither a cluster client nor a provider client. *)
Theorem main_requires_GROUP_NAME (env : gmap string string) :
  (Main.main env = Panic "GROUP_NAME must be specified" <->
   env !! "GROUP_NAME" = None \/ env !! "GROUP_NAME" = Some "") /\
  (forall g, env !! "GROUP_NAME" = Some g -> g <> "" ->
     Main.main env
     = Done (Main.RunWebhookServer g {| k8sClient := None; ns1Client := None |})).
Proof.
  unfold Main.main, Main.groupName, Main.os_Getenv.
  destruct (env !! "GROUP_NAME") as [g|]; simpl.
  - destruct (String.eqb_spec g "") as [->|Hg]; split.
    + split; [by right | done].
    + by intros g' [= <-].
    + split; [done | by intros [?|[= ?]]].
    + by intros g' [= <-].
  - split; [split; [by left | done] | done].
Qed.

Lemma main_requires_GROUP_NAME_witness :
  Main.main {[ "GROUP_NAME" := "acme.example.com" ]}
    = Done (Main.RunWebhookServer "acme.example.com"
              {| k8sClient := None; ns1Client := None |}) /\
  Main.main ∅ = Panic "GROUP_NAME must be specified".
Proof.
  split.
  - refine (proj2 (main_requires_GROUP_NAME {[ "GROUP_NAME" := "acme.example.com" ]})
              "acme.example.com" eq_refl _).
    discriminate.
  - apply (proj1 (main_requires_GROUP_NAME ∅)). by left.
Defined.
